(** * docx-to-pdf: a shallow embedding of [index.js]

    The module converts a DOCX buffer to PDF by gluing together the file
    system, Mammoth (DOCX to HTML) and Puppeteer (HTML to PDF).  The
    embedding keeps that shape: the pure parts (option defaulting, the
    layout template, the output name, the format heuristic, Base64) are
    Rocq functions, and the effectful parts run in a state-and-exception
    monad over a [World] that holds the file system, the console and the
    trace of external calls.  What the external libraries answer is a
    parameter of the development ([Env]). *)

From Stdlib Require Import Strings.Byte.
From Stdlib Require Import Strings.Ascii.
From stdpp Require Import base option list strings gmap fin_maps pretty.

Local Open Scope N_scope.

(** ** JavaScript strings

    A string is the sequence of its code units; only ASCII code units are
    ever inspected by the module. *)

Module JsString.

(** One double-quote character, for the templates that contain it. *)
Definition dquote : string := String (ascii_of_nat 34) EmptyString.

Definition concat (parts : list string) : string :=
  foldr String.append EmptyString parts.

Definition is_empty (s : string) : bool :=
  match s with EmptyString => true | String _ _ => false end.

(** [a || b] on strings that may be [undefined]: the right operand is
    taken when the left one is falsy, that is [undefined] or empty. *)
Definition or_else (a : option string) (b : string) : string :=
  match a with
  | Some s => if is_empty s then b else s
  | None => b
  end.

(** [s.startsWith(p)] *)
Fixpoint starts_with (p s : string) : bool :=
  match p, s with
  | EmptyString, _ => true
  | String a p', String b s' => bool_decide (a = b) && starts_with p' s'
  | String _ _, EmptyString => false
  end.

(** [s.includes(needle)] *)
Fixpoint includes (needle s : string) : bool :=
  starts_with needle s ||
  match s with
  | EmptyString => false
  | String _ s' => includes needle s'
  end.

(** Canonicalisation of one code unit under the [i] flag: ASCII letters
    are compared by their upper-case form, everything else by itself. *)
Definition canonicalize (c : ascii) : ascii :=
  let n := N_of_ascii c in
  if (97 <=? n) && (n <=? 122) then ascii_of_N (n - 32) else c.

Definition eqb_i (a b : ascii) : bool :=
  bool_decide (canonicalize a = canonicalize b).

(** Does the regular expression [/\.docx$/i] match [s] from its first
    character?  The literal characters are matched one by one and [$]
    (no [m] flag) only at the end of the input. *)
Fixpoint matches_lit_end (lit s : string) : bool :=
  match lit, s with
  | EmptyString, EmptyString => true
  | String p lit', String c s' => eqb_i p c && matches_lit_end lit' s'
  | _, _ => false
  end.

(** [s.replace(/<lit>$/i, by)]: the leftmost match is replaced, and a
    string without a match is returned as it is.  [by] contains no
    [$] replacement pattern. *)
Fixpoint replace_lit_end_i (lit by_ s : string) : string :=
  if matches_lit_end lit s then by_
  else match s with
       | EmptyString => EmptyString
       | String c s' => String c (replace_lit_end_i lit by_ s')
       end.

(** What follows the prefix [p] in [s], when [s] starts with it. *)
Fixpoint strip_prefix (p s : string) : option string :=
  match p, s with
  | EmptyString, _ => Some s
  | String a p', String b s' =>
      if bool_decide (a = b) then strip_prefix p' s' else None
  | String _ _, EmptyString => None
  end.

(** [s.endsWith(p)]: some tail of [s] is [p]. *)
Fixpoint ends_with (p s : string) : bool :=
  bool_decide (s = p) ||
  match s with
  | EmptyString => false
  | String _ s' => ends_with p s'
  end.

(** [s.toLowerCase()] on ASCII letters. *)
Definition lower_ascii (c : ascii) : ascii :=
  let n := N_of_ascii c in
  if (65 <=? n) && (n <=? 90) then ascii_of_N (n + 32) else c.

Fixpoint lower (s : string) : string :=
  match s with
  | EmptyString => EmptyString
  | String c s' => String (lower_ascii c) (lower s')
  end.

End JsString.

(** ** [path.join] and [path.basename] (POSIX flavour of Node's [path]) *)

Module Path.

(** The segments of a path between its [/] separators. *)
Fixpoint split (s : string) : list string :=
  match s with
  | EmptyString => [EmptyString]
  | String c s' =>
      if bool_decide (c = "/"%char) then EmptyString :: split s'
      else match split s' with
           | seg :: rest => String c seg :: rest
           | [] => [String c EmptyString]
           end
  end.

Fixpoint has_separator (s : string) : bool :=
  match s with
  | EmptyString => false
  | String c s' => bool_decide (c = "/"%char) || has_separator s'
  end.

(** A plain file name: one segment that names an entry. *)
Definition is_plain (s : string) : bool :=
  negb (has_separator s) && negb (JsString.is_empty s)
  && negb (bool_decide (s = ".")) && negb (bool_decide (s = "..")).

(** [normalizeString]: empty and [.] segments are dropped, [..] removes
    the segment before it, and is kept only where there is nothing to
    remove and the path is relative.  [acc] is the result so far, last
    segment first. *)
Fixpoint normalize_segments (allowAboveRoot : bool) (acc segs : list string)
  : list string :=
  match segs with
  | [] => rev acc
  | seg :: rest =>
      if bool_decide (seg = EmptyString) || bool_decide (seg = ".") then
        normalize_segments allowAboveRoot acc rest
      else if bool_decide (seg = "..") then
        match acc with
        | top :: acc' =>
            if bool_decide (top = "..") then
              normalize_segments allowAboveRoot
                (if allowAboveRoot then ".." :: acc else acc) rest
            else normalize_segments allowAboveRoot acc' rest
        | [] =>
            normalize_segments allowAboveRoot
              (if allowAboveRoot then [".."] else []) rest
        end
      else normalize_segments allowAboveRoot (seg :: acc) rest
  end.

Fixpoint join_segments (segs : list string) : string :=
  match segs with
  | [] => EmptyString
  | [seg] => seg
  | seg :: rest => seg +:+ "/" +:+ join_segments rest
  end.

Definition normalize (p : string) : string :=
  if JsString.is_empty p then "." else
  let isAbsolute := JsString.starts_with "/" p in
  let trailingSeparator := JsString.ends_with "/" p in
  let body := join_segments (normalize_segments (negb isAbsolute) [] (split p)) in
  if JsString.is_empty body then
    if isAbsolute then "/" else if trailingSeparator then "./" else "."
  else
    let body := if trailingSeparator then body +:+ "/" else body in
    if isAbsolute then "/" +:+ body else body.

(** [path.join(...args)]: the non-empty arguments are joined with [/]
    and the result is normalised. *)
Definition join (args : list string) : string :=
  match filter (λ a, JsString.is_empty a = false) args with
  | [] => "."
  | parts => normalize (join_segments parts)
  end.

(** [path.basename(p)]: the last non-empty segment, trailing separators
    ignored; empty when there is none. *)
Definition basename (p : string) : string :=
  default EmptyString (last (filter (λ a, JsString.is_empty a = false) (split p))).

End Path.

(** ** Base64, as [Buffer.prototype.toString('base64')] writes it and
    [Buffer.from(s, 'base64')] reads it back (RFC 4648, with padding) *)

Module Base64.

Definition alphabet : string :=
  "ABCDEFGHIJKLMNOPQRSTUVWXYZabcdefghijklmnopqrstuvwxyz0123456789+/".

Definition pad : ascii := "="%char.

(** The character of a six-bit value. *)
Definition to_char (n : N) : ascii :=
  default pad (String.get (N.to_nat n) alphabet).

Fixpoint index_go (c : ascii) (s : string) (i : N) : option N :=
  match s with
  | EmptyString => None
  | String a s' => if bool_decide (a = c) then Some i else index_go c s' (i + 1)
  end.

(** The six-bit value of a character of the alphabet. *)
Definition of_char (c : ascii) : option N := index_go c alphabet 0.

(** Three bytes are written as four characters. *)
Definition sextet0 (a : N) : N := a / 4.
Definition sextet1 (a b : N) : N := (a mod 4) * 16 + b / 16.
Definition sextet2 (b c : N) : N := (b mod 16) * 4 + c / 64.
Definition sextet3 (c : N) : N := c mod 64.

Fixpoint encode (bs : list byte) : string :=
  match bs with
  | [] => EmptyString
  | [a] =>
      let a := Byte.to_N a in
      String (to_char (sextet0 a)) (String (to_char (sextet1 a 0))
        (String pad (String pad EmptyString)))
  | [a; b] =>
      let a := Byte.to_N a in
      let b := Byte.to_N b in
      String (to_char (sextet0 a)) (String (to_char (sextet1 a b))
        (String (to_char (sextet2 b 0)) (String pad EmptyString)))
  | a :: b :: c :: rest =>
      let a := Byte.to_N a in
      let b := Byte.to_N b in
      let c := Byte.to_N c in
      String (to_char (sextet0 a)) (String (to_char (sextet1 a b))
        (String (to_char (sextet2 b c)) (String (to_char (sextet3 c))
          (encode rest))))
  end.

(** The byte with a given value; values of a well-formed text are below 256. *)
Definition byte_of (n : N) : byte := default Byte.x00 (Byte.of_N (n mod 256)).

Definition octet0 (s0 s1 : N) : byte := byte_of (s0 * 4 + s1 / 16).
Definition octet1 (s1 s2 : N) : byte := byte_of ((s1 mod 16) * 16 + s2 / 4).
Definition octet2 (s2 s3 : N) : byte := byte_of ((s2 mod 4) * 64 + s3).

(** Four characters are read back as three bytes; the padding marks a
    last group of one or two bytes, and reading stops at a character
    outside the alphabet. *)
Fixpoint decode (s : string) : list byte :=
  match s with
  | String c0 (String c1 (String c2 (String c3 rest))) =>
      match of_char c0, of_char c1 with
      | Some s0, Some s1 =>
          match of_char c2 with
          | Some s2 =>
              match of_char c3 with
              | Some s3 => octet0 s0 s1 :: octet1 s1 s2 :: octet2 s2 s3 :: decode rest
              | None => [octet0 s0 s1; octet1 s1 s2]
              end
          | None => [octet0 s0 s1]
          end
      | _, _ => []
      end
  | _ => []
  end.

End Base64.

(** ** Values exchanged with the outside world *)

(** A thrown [Error], by its [message]. *)
Record Error := mkError { message : string }.

(** A Mammoth diagnostic, [{type, message}]. *)
Record Message := mkMessage { msg_type : string; msg_message : string }.

Record Margin := mkMargin {
  m_top : string; m_right : string; m_bottom : string; m_left : string }.

(** The argument of [page.pdf]. *)
Record PdfOptions := mkPdfOptions {
  pdf_path : string;
  pdf_format : string;
  pdf_margin : Margin;
  printBackground : bool;
  displayHeaderFooter : bool;
  headerTemplate : string;
  footerTemplate : string }.

(** The argument of [mammoth.convertToHtml]. *)
Record MammothOptions := mkMammothOptions {
  mo_path : string;
  styleMap : list string }.

(** A page of the headless browser, by the document it has loaded. *)
Record Page := mkPage { document : list byte }.

(** Calls that leave the process: file system, Mammoth, Puppeteer. *)
Inductive IOEvent :=
| EvMkdtemp (prefix : string)
| EvWriteFile (path : string)
| EvReadFile (path : string)
| EvRm (path : string)
| EvConvertToHtml (path : string)
| EvExtractRawText (path : string)
| EvLaunch
| EvNewPage
| EvGoto (url : string)
| EvEvaluate (selector : string)
| EvPdf (opts : PdfOptions)
| EvClose.

Inductive LogEntry :=
| ConsoleLog (label : string) (messages : list Message)
| ConsoleWarn (label : string) (err : Error)
| ConsoleError (label : string) (err : Error).

Inductive Node :=
| File (content : list byte)
| Dir.

(** The state a call runs in.  Paths are compared as written; [.] is the
    working directory. *)
Record World := mkWorld {
  files : gmap string Node;
  console : list LogEntry;
  trace : list IOEvent }.

(** What the platform and the two libraries answer. *)
Record Env := mkEnv {
  (** [os.tmpdir()] *)
  os_tmpdir : string;
  (** the six characters [fs.mkdtemp] appends to its prefix *)
  mkdtemp_suffix : World → string;
  (** an external call may fail for reasons of its own (permissions, a
      browser that does not start, an unknown paper format, ...) *)
  io_fault : World → IOEvent → option Error;
  (** [mammoth.convertToHtml] on the bytes of the file: [{value, messages}] *)
  mammoth_convert : list byte → list string → Error + (string * list Message);
  (** [mammoth.extractRawText] on the bytes of the file: [{value, messages}] *)
  mammoth_rawText : list byte → Error + (string * list Message);
  (** [offsetHeight] of the element a selector finds in a document, if any *)
  offsetHeight : list byte → string → option N;
  (** what the browser prints for a document, after the header of the PDF *)
  pdf_body : list byte → PdfOptions → list byte }.

(** A PDF file starts with the header [%PDF-]; the version follows. *)
Definition pdf_header : list byte := String.list_byte_of_string "%PDF-".

(** The PDF the browser prints for a document. *)
Definition render_pdf (env : Env) (doc : list byte) (opts : PdfOptions)
  : list byte :=
  pdf_header ++ pdf_body env doc opts.

(** ** The monad of a call: state and exceptions *)

Definition M (A : Type) : Type := World → (Error + A) * World.

#[global] Instance M_ret : MRet M := λ A a w, (inr a, w).

#[global] Instance M_bind : MBind M := λ A B k m w,
  match m w with
  | (inr a, w') => k a w'
  | (inl e, w') => (inl e, w')
  end.

Definition throw {A} (e : Error) : M A := λ w, (inl e, w).

(** [try { body } catch (e) { handler e }] *)
Definition try_catch {A} (body : M A) (handler : Error → M A) : M A := λ w,
  match body w with
  | (inr a, w') => (inr a, w')
  | (inl e, w') => handler e w'
  end.

Definition when_ (b : bool) (m : M unit) : M unit :=
  if b then m else mret tt.

Definition get_world : M World := λ w, (inr w, w).

Definition set_files (fs : gmap string Node) : M unit := λ w,
  (inr tt, mkWorld fs (console w) (trace w)).

Definition console_emit (entry : LogEntry) : M unit := λ w,
  (inr tt, mkWorld (files w) (console w ++ [entry]) (trace w)).

(** ** The platform *)

Section Platform.

Context (env : Env).

(** Every external call is recorded, then may fail on its own. *)
Definition external (ev : IOEvent) : M unit := λ w,
  let w' := mkWorld (files w) (console w) (trace w ++ [ev]) in
  match io_fault env w ev with
  | Some e => (inl e, w')
  | None => (inr tt, w')
  end.

(** The directory a path lies in. *)
Definition dirname (p : string) : string :=
  match Path.split p with
  | [] | [_] => "."
  | segs =>
      let parent := Path.join_segments (removelast segs) in
      if JsString.is_empty parent then "/" else parent
  end.

(** Is [p] the directory [dir] or something beneath it? *)
Definition within (dir p : string) : bool :=
  bool_decide (p = dir) || JsString.starts_with (dir +:+ "/") p.

Definition is_dir (n : option Node) : bool :=
  match n with Some Dir => true | _ => false end.

(** A file can be written where its directory exists and the name is
    not that of a directory. *)
Definition writable (fs : gmap string Node) (p : string) : bool :=
  is_dir (fs !! dirname p) && negb (is_dir (fs !! p)).

(** [fs.mkdtemp(prefix)] *)
Definition fs_mkdtemp (prefix : string) : M string :=
  w ← get_world;
  let p := prefix +:+ mkdtemp_suffix env w in
  external (EvMkdtemp prefix);;
  if is_dir (files w !! dirname p) then
    if bool_decide (files w !! p = None) then
      set_files (<[p := Dir]> (files w));; mret p
    else throw (mkError ("EEXIST: file already exists, mkdtemp '" +:+ p +:+ "'"))
  else throw (mkError ("ENOENT: no such file or directory, mkdtemp '" +:+ p +:+ "'")).

(** [fs.writeFile(path, data)] *)
Definition fs_writeFile (p : string) (data : list byte) : M unit :=
  external (EvWriteFile p);;
  w ← get_world;
  if writable (files w) p then set_files (<[p := File data]> (files w))
  else throw (mkError ("ENOENT: no such file or directory, open '" +:+ p +:+ "'")).

(** [fs.readFile(path)] *)
Definition fs_readFile (p : string) : M (list byte) :=
  external (EvReadFile p);;
  w ← get_world;
  match files w !! p with
  | Some (File content) => mret content
  | Some Dir => throw (mkError "EISDIR: illegal operation on a directory, read")
  | None => throw (mkError ("ENOENT: no such file or directory, open '" +:+ p +:+ "'"))
  end.

(** [fs.rm(path, { recursive: true, force: true })]: the path and all
    beneath it are removed; a missing path is not an error. *)
Definition fs_rm (p : string) : M unit :=
  external (EvRm p);;
  w ← get_world;
  set_files (filter (λ kv, within p kv.1 = false) (files w)).

(** [mammoth.convertToHtml({ path, styleMap })] *)
Definition mammoth_convertToHtml (opts : MammothOptions)
  : M (string * list Message) :=
  external (EvConvertToHtml (mo_path opts));;
  w ← get_world;
  match files w !! mo_path opts with
  | Some (File content) =>
      match mammoth_convert env content (styleMap opts) with
      | inr r => mret r
      | inl e => throw e
      end
  | _ => throw (mkError ("ENOENT: no such file or directory, open '" +:+ mo_path opts +:+ "'"))
  end.

(** [mammoth.extractRawText({ path })] *)
Definition mammoth_extractRawText (p : string) : M (string * list Message) :=
  external (EvExtractRawText p);;
  w ← get_world;
  match files w !! p with
  | Some (File content) =>
      match mammoth_rawText env content with
      | inr r => mret r
      | inl e => throw e
      end
  | _ => throw (mkError ("ENOENT: no such file or directory, open '" +:+ p +:+ "'"))
  end.

(** [puppeteer.launch(...)], [browser.newPage()], [browser.close()].  The
    files of a [World] are those the module works with; what the browser
    keeps for itself while it runs, such as its profile directory under
    [os.tmpdir()], is not among them. *)
Definition puppeteer_launch : M unit := external EvLaunch.
Definition browser_newPage : M Page := external EvNewPage;; mret (mkPage []).
Definition browser_close : M unit := external EvClose.

(** The file a [file://] URL names. *)
Definition file_of_url (url : string) : option string :=
  JsString.strip_prefix "file://" url.

(** [page.goto(url, ...)]: the page now shows the document at [url]. *)
Definition page_goto (page : Page) (url : string) : M Page :=
  external (EvGoto url);;
  w ← get_world;
  match file_of_url url ≫= λ p, files w !! p with
  | Some (File content) => mret (mkPage content)
  | _ => throw (mkError ("net::ERR_FILE_NOT_FOUND at " +:+ url))
  end.

(** [page.evaluate(() => { const el = document.querySelector(sel);
    return el ? el.offsetHeight : 0 })] *)
Definition page_evaluate_offsetHeight (page : Page) (sel : string) : M N :=
  external (EvEvaluate sel);;
  mret (default 0 (offsetHeight env (document page) sel)).

(** [page.pdf(opts)]: the PDF is written to [opts.path]. *)
Definition page_pdf (page : Page) (opts : PdfOptions) : M unit :=
  external (EvPdf opts);;
  w ← get_world;
  if writable (files w) (pdf_path opts) then
    set_files (<[pdf_path opts := File (render_pdf env (document page) opts)]> (files w))
  else throw (mkError ("ENOENT: no such file or directory, open '" +:+ pdf_path opts +:+ "'")).

Definition console_log (label : string) (ms : list Message) : M unit :=
  console_emit (ConsoleLog label ms).
Definition console_warn (label : string) (e : Error) : M unit :=
  console_emit (ConsoleWarn label e).
Definition console_error (label : string) (e : Error) : M unit :=
  console_emit (ConsoleError label e).

End Platform.

(** ** The module: [index.js] *)

(** [options]; an absent key is [None] *)
Record Options := mkOptions {
  opt_returnType : option string;
  opt_outputDir : option string }.

(** [pageConfig.margin] *)
Record MarginConfig := mkMarginConfig {
  mc_top : option string; mc_right : option string;
  mc_bottom : option string; mc_left : option string }.

(** [formatOptions.pageConfig] *)
Record PageConfig := mkPageConfig {
  pc_format : option string;
  pc_margin : option MarginConfig }.

(** [formatOptions] *)
Record FormatOptions := mkFormatOptions {
  fo_pageConfig : option PageConfig;
  fo_preserveHeaders : option bool }.

Record FinalPageConfig := mkFinalPageConfig {
  format : string;
  margin : Margin }.

(** The object [convertDocxToPdf] resolves to; an absent key is [None]. *)
Record ConversionResult := mkResult {
  buffer : option (list byte);
  filename : string;
  base64 : option string }.

(** The object [extractDocumentMetadata] resolves to. *)
Record Metadata := mkMetadata {
  suggestedFormat : string;
  contentLength : nat;
  hasHeaders : bool;
  hasFooters : bool;
  messages : list Message }.

Definition defaultPageConfig : FinalPageConfig :=
  mkFinalPageConfig "A4" (mkMargin "1in" "1in" "1in" "1in").

(** [pageConfig.margin?.side || defaultPageConfig.margin.side] *)
Definition margin_side (m : option MarginConfig)
    (side : MarginConfig → option string) (dflt : string) : string :=
  JsString.or_else (m ≫= side) dflt.

Definition finalPageConfig (pageConfig : PageConfig) : FinalPageConfig :=
  mkFinalPageConfig
    (JsString.or_else (pc_format pageConfig) (format defaultPageConfig))
    (mkMargin
       (margin_side (pc_margin pageConfig) mc_top (m_top (margin defaultPageConfig)))
       (margin_side (pc_margin pageConfig) mc_right (m_right (margin defaultPageConfig)))
       (margin_side (pc_margin pageConfig) mc_bottom (m_bottom (margin defaultPageConfig)))
       (margin_side (pc_margin pageConfig) mc_left (m_left (margin defaultPageConfig)))).

Definition mammothStyleMap : list string :=
  [ "p[style-name='Heading 1'] => h1:fresh";
    "p[style-name='Heading 2'] => h2:fresh";
    "p[style-name='Heading 3'] => h3:fresh";
    "p[style-name='Title'] => h1.title:fresh";
    "r[style-name='Strong'] => strong";
    "p[style-name='Text Body'] => p:fresh";
    "p[style-name='List Paragraph'] => p.list-paragraph:fresh";
    "p[style-name='Header'] => div.header > p:fresh";
    "p[style-name='Footer'] => div.footer > p:fresh";
    "p[style-name='TOC Heading'] => h1.toc-heading:fresh";
    "p[style-name='TOC 1'] => p.toc-1:fresh";
    "p[style-name='TOC 2'] => p.toc-2:fresh";
    "r[style-name='Hyperlink'] => a" ].

(** The style sheet of the layout wrapper. *)
Definition css (cfg : FinalPageConfig) : string :=
  JsString.concat [
"
      body {
        font-family: 'Arial', 'Helvetica', sans-serif;
        line-height: 1.5;
        margin: 0;
        padding: 0;
        counter-reset: page;
      }
      @page {
        size: "; format cfg; ";
        margin: "; m_top (margin cfg); " "; m_right (margin cfg); " ";
        m_bottom (margin cfg); " "; m_left (margin cfg); ";
      }
      .header, .footer {
        position: fixed;
        width: 100%;
        left: 0;
      }
      .header {
        top: 0;
      }
      .footer {
        bottom: 0;
      }
      table {
        width: 100%;
        border-collapse: collapse;
      }
      td, th {
        padding: 8px;
        border: 1px solid #ddd;
      }
      .pagebreak {
        page-break-before: always;
      }
      .text-center {
        text-align: center;
      }
      .text-right {
        text-align: right;
      }
      .text-left {
        text-align: left;
      }
      .text-justify {
        text-align: justify;
      }
      /* Add page numbers */
      .footer:after {
        content: counter(page);
        counter-increment: page;
      }
    " ].

(** The complete document: the extracted HTML in its shell. *)
Definition completeHtml (originalFilename : string) (cfg : FinalPageConfig)
    (preserveHeaders : bool) (htmlContent : string) : string :=
  let q := JsString.dquote in
  JsString.concat [
"
      <!DOCTYPE html>
      <html>
      <head>
        <meta charset="; q; "UTF-8"; q; ">
        <title>"; originalFilename; "</title>
        <style>"; css cfg; "</style>
      </head>
      <body>
        ";
    (if preserveHeaders then
       JsString.concat [
         "<div class="; q; "header"; q; "></div>
           <div class="; q; "content"; q; ">"; htmlContent; "</div>
           <div class="; q; "footer"; q; "></div>" ]
     else htmlContent); "
      </body>
      </html>
    " ].

Definition pdfHeaderTemplate (preserveHeaders : bool) : string :=
  let q := JsString.dquote in
  if preserveHeaders then
    JsString.concat
      ["<div style="; q; "width: 100%; padding: 0 1cm; font-size: 10px;"; q; "></div>"]
  else EmptyString.

Definition pdfFooterTemplate (preserveHeaders : bool) : string :=
  let q := JsString.dquote in
  if preserveHeaders then
    JsString.concat
      ["<div style="; q;
       "width: 100%; padding: 0 1cm; font-size: 10px; text-align: center;"; q;
       "></div>"]
  else EmptyString.

(** [originalFilename.replace(/\.docx$/i, '.pdf')] *)
Definition pdfName (originalFilename : string) : string :=
  JsString.replace_lit_end_i ".docx" ".pdf" originalFilename.

(** The options handed to [page.pdf]. *)
Definition pdfOptions (outputPath : string) (cfg : FinalPageConfig)
    (preserveHeaders : bool) (headerHeight footerHeight : N) : PdfOptions :=
  mkPdfOptions outputPath (format cfg)
    (mkMargin
       (if preserveHeaders then pretty (headerHeight + 36) +:+ "px"
        else m_top (margin cfg))
       (m_right (margin cfg))
       (if preserveHeaders then pretty (footerHeight + 36) +:+ "px"
        else m_bottom (margin cfg))
       (m_left (margin cfg)))
    true preserveHeaders
    (pdfHeaderTemplate preserveHeaders) (pdfFooterTemplate preserveHeaders).

(** The format heuristic of [extractDocumentMetadata]:
    [let f = 'A4'; if (n > 3000) f = 'A4'; else if (n > 500) f = 'Letter'] *)
Definition suggestFormat (contentLength : nat) : string :=
  if (3000 <? contentLength)%nat then "A4"
  else if (500 <? contentLength)%nat then "Letter"
  else "A4".

(** The guess [extractDocumentMetadata] falls back to. *)
Definition defaultMetadata : Metadata := mkMetadata "A4" 0 false false [].

(** [messages.some(m => m.message.includes(word))] *)
Definition some_message_includes (word : string) (ms : list Message) : bool :=
  existsb (λ m, JsString.includes word (msg_message m)) ms.

Section Module.

Context (env : Env).

(** The statements after [fs.readFile]: the result for a return type. *)
Definition package (returnType outputPath : string) (pdfBuffer : list byte)
  : M ConversionResult :=
  let base64 :=
    if bool_decide (returnType = "base64") then Some (Base64.encode pdfBuffer)
    else None in
  if bool_decide (returnType = "buffer") then
    mret (mkResult (Some pdfBuffer) (Path.basename outputPath) None)
  else if bool_decide (returnType = "file") then
    mret (mkResult None outputPath None)
  else if bool_decide (returnType = "base64") then
    mret (mkResult None (Path.basename outputPath) base64)
  else throw (mkError ("Invalid returnType specified: " +:+ returnType)).

(** The statements of the [try] block up to [fs.readFile]: the PDF is
    produced at [outputPath] and read back. *)
Definition pipeline (fileBuffer : list byte) (originalFilename outputDir : string)
    (cfg : FinalPageConfig) (preserveHeaders : bool) : M (string * list byte) :=
  tempDir ← fs_mkdtemp env (Path.join [os_tmpdir env; "doc-convert-"]);
  let tempFilePath := Path.join [tempDir; "input.docx"] in
  fs_writeFile env tempFilePath fileBuffer;;
  let mammothOptions := mkMammothOptions tempFilePath mammothStyleMap in
  '(htmlContent, messages) ← mammoth_convertToHtml env mammothOptions;
  when_ (0 <? length messages)%nat
    (console_log "Mammoth conversion messages:" messages);;
  let completeHtml := completeHtml originalFilename cfg preserveHeaders htmlContent in
  let tempHtmlPath := Path.join [tempDir; "output.html"] in
  fs_writeFile env tempHtmlPath (String.list_byte_of_string completeHtml);;
  let outputPath := Path.join [outputDir; pdfName originalFilename] in
  puppeteer_launch env;;
  page ← browser_newPage env;
  page ← page_goto env page ("file://" +:+ tempHtmlPath);
  heights ←
    (if preserveHeaders then
       headerHeight ← page_evaluate_offsetHeight env page ".header";
       footerHeight ← page_evaluate_offsetHeight env page ".footer";
       mret (headerHeight, footerHeight)
     else mret (0, 0));
  page_pdf env page
    (pdfOptions outputPath cfg preserveHeaders heights.1 heights.2);;
  browser_close env;;
  try_catch (fs_rm env tempDir)
    (λ cleanupErr,
       console_warn "Warning: Failed to clean up temporary files" cleanupErr);;
  pdfBuffer ← fs_readFile env outputPath;
  mret (outputPath, pdfBuffer).

(** The [try] block of [convertDocxToPdf]. *)
Definition convertDocxToPdf_try (fileBuffer : list byte)
    (originalFilename returnType outputDir : string)
    (cfg : FinalPageConfig) (preserveHeaders : bool) : M ConversionResult :=
  '(outputPath, pdfBuffer) ←
    pipeline fileBuffer originalFilename outputDir cfg preserveHeaders;
  package returnType outputPath pdfBuffer.

(** The [catch] block of [convertDocxToPdf]. *)
Definition convertDocxToPdf_catch (error : Error) : M ConversionResult :=
  console_error "Error converting DOCX to PDF:" error;;
  throw (mkError ("Failed to convert DOCX document to PDF: " +:+ message error)).

Definition convertDocxToPdf (fileBuffer : list byte) (originalFilename : string)
    (options : Options) (formatOptions : FormatOptions) : M ConversionResult :=
  let returnType := default "buffer" (opt_returnType options) in
  let outputDir := default (os_tmpdir env) (opt_outputDir options) in
  let pageConfig := default (mkPageConfig None None) (fo_pageConfig formatOptions) in
  let preserveHeaders := default true (fo_preserveHeaders formatOptions) in
  try_catch
    (convertDocxToPdf_try fileBuffer originalFilename returnType outputDir
       (finalPageConfig pageConfig) preserveHeaders)
    convertDocxToPdf_catch.

(** The [try] block of [extractDocumentMetadata]. *)
Definition extractDocumentMetadata_try (fileBuffer : list byte) : M Metadata :=
  tempDir ← fs_mkdtemp env (Path.join [os_tmpdir env; "doc-meta-"]);
  let tempFilePath := Path.join [tempDir; "temp.docx"] in
  fs_writeFile env tempFilePath fileBuffer;;
  '(value, messages) ← mammoth_extractRawText env tempFilePath;
  let contentLength := String.length value in
  mret (mkMetadata (suggestFormat contentLength) contentLength
          (some_message_includes "header" messages)
          (some_message_includes "footer" messages)
          messages).

(** The [catch] block of [extractDocumentMetadata]. *)
Definition extractDocumentMetadata_catch (error : Error) : M Metadata :=
  console_error "Failed to extract document metadata:" error;;
  mret (mkMetadata "A4" 0 false false []).

Definition extractDocumentMetadata (fileBuffer : list byte) : M Metadata :=
  try_catch (extractDocumentMetadata_try fileBuffer) extractDocumentMetadata_catch.

Definition smartConvertDocxToPdf (fileBuffer : list byte)
    (originalFilename : string) (options : Options) : M ConversionResult :=
  metadata ← extractDocumentMetadata fileBuffer;
  let formatOptions :=
    mkFormatOptions
      (Some (mkPageConfig (Some (suggestedFormat metadata))
               (Some (mkMarginConfig (Some "1in") (Some "1in")
                                     (Some "1in") (Some "1in")))))
      (Some (hasHeaders metadata || hasFooters metadata)) in
  convertDocxToPdf fileBuffer originalFilename options formatOptions.

End Module.

(** ** What a run leaves behind

    Names for the worlds and values the statements below speak about. *)

Section Run.

Context (env : Env).

(** The world after one more external call. *)
Definition record (ev : IOEvent) (w : World) : World :=
  mkWorld (files w) (console w) (trace w ++ [ev]).

(** The world with another file system. *)
Definition store (fs : gmap string Node) (w : World) : World :=
  mkWorld fs (console w) (trace w).

(** The world after one more console line. *)
Definition logged (entry : LogEntry) (w : World) : World :=
  mkWorld (files w) (console w ++ [entry]) (trace w).

(** The directory [fs.mkdtemp] makes for a prefix in a world. *)
Definition tempDirOf (prefix : string) (w : World) : string :=
  Path.join [os_tmpdir env; prefix] +:+ mkdtemp_suffix env w.

(** The bytes of the wrapped document. *)
Definition wrappedDocument (originalFilename : string) (cfg : FinalPageConfig)
    (preserveHeaders : bool) (htmlContent : string) : list byte :=
  String.list_byte_of_string
    (completeHtml originalFilename cfg preserveHeaders htmlContent).

(** The heights measured on a document. *)
Definition measuredHeights (preserveHeaders : bool) (doc : list byte) : N * N :=
  if preserveHeaders then
    (default 0 (offsetHeight env doc ".header"),
     default 0 (offsetHeight env doc ".footer"))
  else (0, 0).

(** The external calls of a run of the pipeline that succeeds, in order. *)
Definition pipeline_events (tempDir : string) (preserveHeaders : bool)
    (opts : PdfOptions) : list IOEvent :=
  [ EvMkdtemp (Path.join [os_tmpdir env; "doc-convert-"]);
    EvWriteFile (Path.join [tempDir; "input.docx"]);
    EvConvertToHtml (Path.join [tempDir; "input.docx"]);
    EvWriteFile (Path.join [tempDir; "output.html"]);
    EvLaunch; EvNewPage;
    EvGoto ("file://" +:+ Path.join [tempDir; "output.html"]) ] ++
  (if preserveHeaders then [EvEvaluate ".header"; EvEvaluate ".footer"] else []) ++
  [ EvPdf opts; EvClose; EvRm tempDir; EvReadFile (pdf_path opts) ].

(** The console line for Mammoth's diagnostics, when there are any. *)
Definition messages_log (ms : list Message) : list LogEntry :=
  if (0 <? length ms)%nat then [ConsoleLog "Mammoth conversion messages:" ms] else [].

(** The files a run has written when it reaches the clean-up. *)
Definition files_written (fs : gmap string Node) (tempDir outputPath : string)
    (fileBuffer doc pdf : list byte) : gmap string Node :=
  <[outputPath := File pdf]>
    (<[Path.join [tempDir; "output.html"] := File doc]>
       (<[Path.join [tempDir; "input.docx"] := File fileBuffer]>
          (<[tempDir := Dir]> fs))).

(** The clean-up: the temporary directory and all beneath it are gone, or
    removing it failed and a warning was logged. *)
Definition cleaned_up (tempDir : string) (before : gmap string Node)
    (log : list LogEntry) (w' : World) : Prop :=
  (files w' = filter (λ kv, within tempDir kv.1 = false) before ∧
   console w' = log) ∨
  (∃ cleanupErr,
     files w' = before ∧
     console w' = log ++
       [ConsoleWarn "Warning: Failed to clean up temporary files" cleanupErr]).

(** The options as [convertDocxToPdf] reads them. *)
Definition returnTypeOf (options : Options) : string :=
  default "buffer" (opt_returnType options).

Definition outputDirOf (options : Options) : string :=
  default (os_tmpdir env) (opt_outputDir options).

(** The format options as [convertDocxToPdf] reads them. *)
Definition pageConfigOf (formatOptions : FormatOptions) : FinalPageConfig :=
  finalPageConfig (default (mkPageConfig None None) (fo_pageConfig formatOptions)).

Definition preserveHeadersOf (formatOptions : FormatOptions) : bool :=
  default true (fo_preserveHeaders formatOptions).

(** The path the PDF is written to. *)
Definition outputPathOf (options : Options) (originalFilename : string) : string :=
  Path.join [outputDirOf options; pdfName originalFilename].

End Run.

(** The valid return types. *)
Definition valid_returnType (rt : string) : Prop :=
  rt = "buffer" ∨ rt = "file" ∨ rt = "base64".

(** A name ends in [.docx], whatever the case of its letters. *)
Definition ends_in_docx (name : string) : Prop :=
  ∃ stem ext, name = stem +:+ ext ∧ JsString.lower ext = ".docx".

(** The format options of the smart converter, as documented: the guessed
    format, margins of one inch, headers preserved when the document seems
    to have headers or footers. *)
Definition smartFormatOptions (metadata : Metadata) : FormatOptions :=
  mkFormatOptions
    (Some (mkPageConfig (Some (suggestedFormat metadata))
             (Some (mkMarginConfig (Some "1in") (Some "1in")
                                   (Some "1in") (Some "1in")))))
    (Some (hasHeaders metadata || hasFooters metadata)).

(** The format for a text length, as documented: A4 up to 500 characters,
    Letter above 500 and up to 3000, A4 above 3000. *)
Definition format_by_length (len : nat) : string :=
  if (len <=? 500)%nat then "A4"
  else if (len <=? 3000)%nat then "Letter"
  else "A4".

(** ** A sample platform

    A temporary directory [/tmp], a Mammoth that accepts ZIP archives
    (first bytes [PK]) and a browser that prints a small PDF. *)

Module Sample.

Definition docx : list byte := String.list_byte_of_string "PK-sample-docx".

Definition not_docx : list byte := String.list_byte_of_string "plain text".

Definition pdf : list byte := String.list_byte_of_string "%PDF-1.4 sample".

(** What follows the header in [pdf]. *)
Definition pdf_rest : list byte := String.list_byte_of_string "1.4 sample".

Definition is_zip (content : list byte) : bool :=
  match content with
  | a :: b :: _ => Byte.eqb a "P"%byte && Byte.eqb b "K"%byte
  | _ => false
  end.

Definition not_a_zip : Error :=
  mkError "Can't find end of central directory : is this a zip file ?".

Definition convert_html (content : list byte) (styles : list string)
  : Error + (string * list Message) :=
  if is_zip content then inr ("<p>Hello</p>", []) else inl not_a_zip.

Definition raw_text (content : list byte) : Error + (string * list Message) :=
  if is_zip content then inr ("Hello", []) else inl not_a_zip.

Definition no_fault (w : World) (ev : IOEvent) : option Error := None.

(** The browser cannot be started. *)
Definition no_browser (w : World) (ev : IOEvent) : option Error :=
  match ev with
  | EvLaunch => Some (mkError "Failed to launch the browser process!")
  | _ => None
  end.

(** The temporary directory cannot be removed. *)
Definition no_removal (w : World) (ev : IOEvent) : option Error :=
  match ev with
  | EvRm _ => Some (mkError "EACCES: permission denied, rm")
  | _ => None
  end.

Definition env_with (fault : World → IOEvent → option Error) : Env :=
  mkEnv "/tmp" (λ _, "a1B2c3") fault convert_html raw_text
    (λ _ _, Some 0) (λ _ _, pdf_rest).

Definition env : Env := env_with no_fault.

Definition world : World := mkWorld {[ "/tmp" := Dir ]} [] [].

Definition no_options : Options := mkOptions None None.

Definition returning (rt : string) : Options := mkOptions (Some rt) None.

Definition no_format : FormatOptions := mkFormatOptions None None.

(** [convertDocxToPdf] in the sample world. *)
Definition convert (fault : World → IOEvent → option Error) (fileBuffer : list byte)
    (originalFilename : string) (options : Options)
  : (Error + ConversionResult) * World :=
  convertDocxToPdf (env_with fault) fileBuffer originalFilename options
    no_format world.

(** [extractDocumentMetadata] in the sample world. *)
Definition analyse (fileBuffer : list byte) : (Error + Metadata) * World :=
  extractDocumentMetadata env fileBuffer world.

(** The external calls of a conversion of [sample.docx] that succeeds. *)
Definition events : list IOEvent :=
  pipeline_events env "/tmp/doc-convert-a1B2c3" true
    (pdfOptions "/tmp/sample.pdf" defaultPageConfig true 0 0).

End Sample.

(** ** The paths a call may change *)

(** A computation changes the file system at most at the paths [P]. *)
Definition touches_only {A} (P : string → Prop) (m : M A) : Prop :=
  ∀ w r w', m w = (r, w') → ∀ p, ¬ P p → files w' !! p = files w !! p.

(** The paths a metadata extraction may write. *)
Definition metadata_paths (tempDir : string) (p : string) : Prop :=
  p = tempDir ∨ p = Path.join [tempDir; "temp.docx"].

(** ** A sample platform with diagnostics

    The sample platform with a Mammoth that reports an unknown style, and
    a page whose header and footer are twelve pixels high. *)

Module Diagnosed.

Definition diagnostics : list Message :=
  [mkMessage "warning"
     "Unrecognised paragraph style: 'page header' (Style ID: pageheader)"].

Definition convert_html (content : list byte) (styles : list string)
  : Error + (string * list Message) :=
  if Sample.is_zip content then inr ("<p>Hello</p>", diagnostics)
  else inl Sample.not_a_zip.

Definition raw_text (content : list byte) : Error + (string * list Message) :=
  if Sample.is_zip content then inr ("Hello", diagnostics)
  else inl Sample.not_a_zip.

Definition env : Env :=
  mkEnv "/tmp" (λ _, "a1B2c3") Sample.no_fault convert_html raw_text
    (λ _ _, Some 12) (λ _ _, Sample.pdf_rest).

(** [convertDocxToPdf] with the default options in the sample world. *)
Definition converted : (Error + ConversionResult) * World :=
  convertDocxToPdf env Sample.docx "sample.docx" Sample.no_options
    Sample.no_format Sample.world.

End Diagnosed.

(** ** A sample platform with longer texts

    The sample platform with a Mammoth that extracts a text of [n]
    characters. *)

Module Sized.

Fixpoint text (n : nat) : string :=
  match n with
  | O => EmptyString
  | S n => String "x" (text n)
  end.

Definition raw_text (n : nat) (content : list byte)
  : Error + (string * list Message) :=
  if Sample.is_zip content then inr (text n, []) else inl Sample.not_a_zip.

Definition env (n : nat) : Env :=
  mkEnv "/tmp" (λ _, "a1B2c3") Sample.no_fault Sample.convert_html (raw_text n)
    (λ _ _, Some 0) (λ _ _, Sample.pdf_rest).

(** [extractDocumentMetadata] on the sample document, whose text has [n]
    characters. *)
Definition analysed (n : nat) : (Error + Metadata) * World :=
  extractDocumentMetadata (env n) Sample.docx Sample.world.

End Sized.

(** * Properties *)

(** ** Base64: reading back what was written *)

Module Base64Facts.
Import Base64.

Lemma list_triple_ind {A} (P : list A → Prop) :
  P [] → (∀ a, P [a]) → (∀ a b, P [a; b]) →
  (∀ a b c l, P l → P (a :: b :: c :: l)) → ∀ l, P l.
Proof.
  intros H0 H1 H2 H3.
  fix IH 1. intros [|a [|b [|c l]]]; [apply H0 | apply H1 | apply H2 | apply H3, IH].
Qed.

Lemma of_to_char_table :
  forallb (λ n, bool_decide (of_char (to_char (N.of_nat n)) = Some (N.of_nat n)))
    (seq 0 64) = true.
Proof. vm_compute. reflexivity. Qed.

Lemma of_to_char n : n < 64 → of_char (to_char n) = Some n.
Proof.
  intros Hn.
  pose proof (proj1 (forallb_forall _ _) of_to_char_table (N.to_nat n)) as H.
  cbv beta in H. rewrite N2Nat.id in H. eapply bool_decide_eq_true_1, H.
  apply in_seq. lia.
Qed.

Lemma of_char_pad : of_char pad = None.
Proof. reflexivity. Qed.

Lemma byte_of_to_N (x : byte) : byte_of (Byte.to_N x) = x.
Proof.
  unfold byte_of. pose proof (Byte.to_N_bounded x).
  rewrite N.mod_small by lia. by rewrite Byte.of_to_N.
Qed.

Lemma sextet0_lt a : a <= 255 → sextet0 a < 64.
Proof. intros. unfold sextet0. apply N.Div0.div_lt_upper_bound. lia. Qed.

Lemma sextet1_lt a b : b <= 255 → sextet1 a b < 64.
Proof.
  intros. unfold sextet1.
  pose proof (N.mod_upper_bound a 4).
  assert (b / 16 < 16) by (apply N.Div0.div_lt_upper_bound; lia). lia.
Qed.

Lemma sextet2_lt b c : c <= 255 → sextet2 b c < 64.
Proof.
  intros. unfold sextet2.
  pose proof (N.mod_upper_bound b 16).
  assert (c / 64 < 4) by (apply N.Div0.div_lt_upper_bound; lia). lia.
Qed.

Lemma sextet3_lt c : sextet3 c < 64.
Proof. unfold sextet3. apply N.mod_upper_bound. lia. Qed.

(** The three bytes are recovered from the four six-bit values. *)
Lemma octet0_sextets a b : b <= 255 → sextet0 a * 4 + sextet1 a b / 16 = a.
Proof.
  intros. unfold sextet0, sextet1.
  assert (b / 16 < 16) by (apply N.Div0.div_lt_upper_bound; lia).
  rewrite N.div_add_l by lia. rewrite (N.div_small (b / 16)) by lia.
  pose proof (N.div_mod a 4). lia.
Qed.

Lemma octet1_sextets a b c :
  b <= 255 → c <= 255 → (sextet1 a b mod 16) * 16 + sextet2 b c / 4 = b.
Proof.
  intros. unfold sextet1, sextet2.
  assert (b / 16 < 16) by (apply N.Div0.div_lt_upper_bound; lia).
  assert (c / 64 < 4) by (apply N.Div0.div_lt_upper_bound; lia).
  rewrite (N.add_comm (a mod 4 * 16)), N.Div0.mod_add, (N.mod_small (b / 16)) by lia.
  rewrite N.div_add_l by lia. rewrite (N.div_small (c / 64)) by lia.
  pose proof (N.div_mod b 16). lia.
Qed.

Lemma octet2_sextets b c : c <= 255 → (sextet2 b c mod 4) * 64 + sextet3 c = c.
Proof.
  intros. unfold sextet2, sextet3.
  assert (c / 64 < 4) by (apply N.Div0.div_lt_upper_bound; lia).
  rewrite (N.add_comm (b mod 16 * 4)), N.Div0.mod_add, (N.mod_small (c / 64)) by lia.
  pose proof (N.div_mod c 64). lia.
Qed.

Lemma zero_le_255 : 0 <= 255.
Proof. lia. Qed.

Create HintDb b64.

#[local] Hint Resolve sextet0_lt sextet1_lt sextet2_lt sextet3_lt
  Byte.to_N_bounded zero_le_255 : b64.

Ltac b64_chars := rewrite ?of_to_char, ?of_char_pad by auto with b64.

(** Reading back what was written gives the bytes written. *)
Theorem decode_encode (bs : list byte) : decode (encode bs) = bs.
Proof.
  induction bs as [|a|a b|a b c l IH] using list_triple_ind;
    cbn [encode decode]; b64_chars; unfold octet0, octet1, octet2.
  - reflexivity.
  - rewrite octet0_sextets by auto with b64.
    by rewrite byte_of_to_N.
  - rewrite octet0_sextets, octet1_sextets by auto with b64.
    by rewrite !byte_of_to_N.
  - rewrite octet0_sextets, octet1_sextets, octet2_sextets by auto with b64.
    by rewrite !byte_of_to_N, IH.
Qed.

End Base64Facts.

(** ** Strings and the output name *)

Module JsStringFacts.
Import JsString.

Lemma append_nil (b : string) : EmptyString +:+ b = b.
Proof. reflexivity. Qed.

Lemma append_cons x (a b : string) : String x a +:+ b = String x (a +:+ b).
Proof. reflexivity. Qed.

Lemma append_assoc (a b c : string) : (a +:+ b) +:+ c = a +:+ (b +:+ c).
Proof.
  induction a as [|x a IH]; [done|]. by rewrite !append_cons, IH.
Qed.

Lemma length_append (a b : string) :
  String.length (a +:+ b) = (String.length a + String.length b)%nat.
Proof.
  induction a as [|x a IH]; [done|]. rewrite append_cons. simpl. by rewrite IH.
Qed.

Lemma length_lower (s : string) : String.length (lower s) = String.length s.
Proof. induction s as [|x s IH]; simpl; [done | by f_equal]. Qed.

(** Comparing under the [i] flag is comparing the lower-case forms. *)
Lemma eqb_i_table :
  forallb (λ i, forallb (λ j,
    bool_decide (eqb_i (ascii_of_nat i) (ascii_of_nat j)
                 = bool_decide (lower_ascii (ascii_of_nat i)
                                = lower_ascii (ascii_of_nat j))))
    (seq 0 256)) (seq 0 256) = true.
Proof. vm_compute. reflexivity. Qed.

Lemma eqb_i_lower (a b : ascii) :
  eqb_i a b = bool_decide (lower_ascii a = lower_ascii b).
Proof.
  pose proof (proj1 (forallb_forall _ _) eqb_i_table (nat_of_ascii a)) as H.
  cbv beta in H.
  specialize (H ltac:(apply in_seq; pose proof (nat_ascii_bounded a); lia)).
  pose proof (proj1 (forallb_forall _ _) H (nat_of_ascii b)) as H'.
  cbv beta in H'.
  specialize (H' ltac:(apply in_seq; pose proof (nat_ascii_bounded b); lia)).
  rewrite !ascii_nat_embedding in H'. by eapply bool_decide_eq_true_1.
Qed.

Lemma matches_lit_end_lower (lit s : string) :
  matches_lit_end lit s = true ↔ lower s = lower lit.
Proof.
  revert s. induction lit as [|p lit IH]; intros [|c s]; simpl; try done.
  rewrite andb_true_iff, IH, eqb_i_lower, bool_decide_eq_true.
  split; [intros [-> ->]; done | intros [= -> ->]; done].
Qed.

Lemma replace_lit_end_i_unfold lit by_ s :
  replace_lit_end_i lit by_ s =
    if matches_lit_end lit s then by_
    else match s with
         | EmptyString => EmptyString
         | String c s' => String c (replace_lit_end_i lit by_ s')
         end.
Proof. by destruct s. Qed.

(** A match is the whole of a tail: the stem before it is kept. *)
Lemma replace_lit_end_i_match lit by_ stem ext :
  lower ext = lower lit →
  replace_lit_end_i lit by_ (stem +:+ ext) = stem +:+ by_.
Proof.
  intros Hext. induction stem as [|c stem IH].
  - rewrite append_nil, replace_lit_end_i_unfold.
    by rewrite (proj2 (matches_lit_end_lower lit ext) Hext).
  - rewrite append_cons, replace_lit_end_i_unfold.
    destruct (matches_lit_end lit (String c (stem +:+ ext))) eqn:Hm.
    + apply matches_lit_end_lower in Hm.
      apply (f_equal String.length) in Hm, Hext.
      rewrite !length_lower in Hm, Hext. simpl in Hm.
      rewrite length_append in Hm. lia.
    + by rewrite IH.
Qed.

(** Without a match the string is returned as it is. *)
Lemma replace_lit_end_i_no_match lit by_ s :
  (∀ stem ext, s = stem +:+ ext → lower ext ≠ lower lit) →
  replace_lit_end_i lit by_ s = s.
Proof.
  induction s as [|c s IH]; intros Hno; rewrite replace_lit_end_i_unfold.
  - destruct (matches_lit_end lit EmptyString) eqn:Hm; [|done].
    apply matches_lit_end_lower in Hm. by destruct (Hno EmptyString EmptyString).
  - destruct (matches_lit_end lit (String c s)) eqn:Hm.
    + apply matches_lit_end_lower in Hm. by destruct (Hno EmptyString (String c s)).
    + rewrite IH; [done|]. intros stem ext ->. by apply (Hno (String c stem) ext).
Qed.

Lemma ends_with_unfold p s :
  ends_with p s =
    bool_decide (s = p) ||
    match s with
    | EmptyString => false
    | String _ s' => ends_with p s'
    end.
Proof. by destruct s. Qed.

Lemma ends_with_refl p : ends_with p p = true.
Proof. rewrite ends_with_unfold. by rewrite bool_decide_eq_true_2. Qed.

Lemma ends_with_append p a b : ends_with p b = true → ends_with p (a +:+ b) = true.
Proof.
  intros Hb. induction a as [|c a IH]; [done|].
  rewrite append_cons, ends_with_unfold, IH. apply orb_true_r.
Qed.

(** [ends_with] is what it says: the string is something followed by [p]. *)
Lemma ends_with_spec p s : ends_with p s = true ↔ ∃ a, s = a +:+ p.
Proof.
  split.
  - induction s as [|c s IH]; rewrite ends_with_unfold, orb_true_iff;
      rewrite bool_decide_eq_true.
    + intros [<-|?]; [by exists EmptyString | done].
    + intros [<-|H]; [by exists EmptyString|].
      destruct (IH H) as [a ->]. by exists (String c a).
  - intros [a ->]. apply ends_with_append, ends_with_refl.
Qed.

End JsStringFacts.

(** ** Paths *)

Module PathFacts.
Import JsString JsStringFacts Path.

Lemma split_unfold s :
  split s =
    match s with
    | EmptyString => [EmptyString]
    | String c s' =>
        if bool_decide (c = "/"%char) then EmptyString :: split s'
        else match split s' with
             | seg :: rest => String c seg :: rest
             | [] => [String c EmptyString]
             end
    end.
Proof. by destruct s. Qed.

Lemma split_not_nil s : split s ≠ [].
Proof.
  destruct s as [|c s]; [done|]. rewrite split_unfold.
  case_bool_decide; [done|]. by destruct (split s).
Qed.

Lemma split_append_sep a b : split (a +:+ "/" +:+ b) = split a ++ split b.
Proof.
  induction a as [|c a IH].
  - done.
  - rewrite append_cons, (split_unfold (String c a)), split_unfold, IH.
    case_bool_decide; [done|].
    pose proof (split_not_nil a). by destruct (split a).
Qed.

Lemma split_no_separator s : has_separator s = false → split s = [s].
Proof.
  induction s as [|c s IH]; [done|]. simpl.
  intros [Hc Hs]%orb_false_iff. rewrite Hc, IH; done.
Qed.

Lemma is_plain_spec s :
  is_plain s = true ↔
  has_separator s = false ∧ s ≠ EmptyString ∧ s ≠ "." ∧ s ≠ "..".
Proof.
  unfold is_plain. rewrite !andb_true_iff, !negb_true_iff, !bool_decide_eq_false.
  split; [intros [[[? Hne] ?] ?] | intros (? & Hne & ? & ?)]; repeat split;
    try done; by destruct s.
Qed.

Lemma basename_of_plain name : is_plain name = true → basename name = name.
Proof.
  intros (Hs & Hne & _)%is_plain_spec. unfold basename.
  rewrite split_no_separator by done. by destruct name.
Qed.

Lemma basename_after_sep dir name :
  is_plain name = true → basename (dir +:+ "/" +:+ name) = name.
Proof.
  intros (Hs & Hne & _)%is_plain_spec. unfold basename.
  rewrite split_append_sep, (split_no_separator name), filter_app by done.
  destruct name; [done|].
  rewrite (filter_cons_True _ (String _ _)), filter_nil by done.
  by rewrite last_snoc.
Qed.

(** A plain last segment stays the last segment. *)
Lemma normalize_segments_snoc allow acc segs name :
  is_plain name = true →
  ∃ pre, normalize_segments allow acc (segs ++ [name]) = pre ++ [name].
Proof.
  intros (_ & Hne & Hdot & Hdots)%is_plain_spec.
  revert acc. induction segs as [|seg segs IH]; intros acc.
  - exists (rev acc). simpl.
    rewrite !bool_decide_eq_false_2 by done. done.
  - cbn [app normalize_segments].
    destruct (bool_decide (seg = EmptyString) || bool_decide (seg = "."));
      [apply IH|].
    destruct (bool_decide (seg = "..")); [|apply IH].
    destruct acc as [|top acc]; [apply IH|].
    destruct (bool_decide (top = "..")); apply IH.
Qed.

Lemma join_segments_snoc pre name :
  join_segments (pre ++ [name]) =
    match pre with
    | [] => name
    | _ => join_segments pre +:+ "/" +:+ name
    end.
Proof.
  induction pre as [|seg pre IH]; [done|].
  change ((seg :: pre) ++ [name]) with (seg :: (pre ++ [name])).
  destruct pre as [|seg' pre]; [done|].
  change (join_segments (seg :: (seg' :: pre) ++ [name]))
    with (seg +:+ "/" +:+ join_segments ((seg' :: pre) ++ [name])).
  rewrite IH.
  change (join_segments (seg :: seg' :: pre))
    with (seg +:+ "/" +:+ join_segments (seg' :: pre)).
  by rewrite !append_assoc.
Qed.

Lemma ends_with_sep_plain a name :
  is_plain name = true → ends_with "/" (a +:+ name) = false.
Proof.
  intros (Hs & Hne & _)%is_plain_spec.
  apply not_true_iff_false. intros [x Hx]%ends_with_spec.
  assert (∀ a x, a +:+ name = x +:+ "/" → False) as Habs; [|by eapply Habs].
  clear a x Hx. intros a. induction a as [|c a IH]; intros x.
  - rewrite append_nil. revert x Hne.
    induction name as [|d name IHn]; intros x Hne Hx; [done|].
    simpl in Hs. apply orb_false_iff in Hs as [Hd Hs].
    apply bool_decide_eq_false in Hd.
    destruct x as [|y x].
    + rewrite append_nil in Hx. by injection Hx as -> _.
    + rewrite append_cons in Hx. injection Hx as -> Hx.
      destruct name as [|e name]; [by destruct x|].
      by eapply (IHn Hs x).
  - rewrite append_cons. destruct x as [|y x].
    + rewrite append_nil. intros [= -> Hx].
      destruct a; [by destruct name|done].
    + rewrite append_cons. intros [= -> Hx]. by eapply IH.
Qed.

Lemma is_empty_append_plain a name :
  is_plain name = true → is_empty (a +:+ name) = false.
Proof.
  intros (_ & Hne & _)%is_plain_spec.
  destruct a; [by destruct name | done].
Qed.

(** Where a normalised path ends in a plain name: after a separator, or
    it is the name alone. *)
Lemma normalize_plain_last p name :
  is_plain name = true →
  (p = name ∨ ∃ dir, p = dir +:+ "/" +:+ name) →
  normalize p = name ∨ ∃ dir, normalize p = dir +:+ "/" +:+ name.
Proof.
  intros Hplain Hp. unfold normalize.
  assert (∃ a, p = a +:+ name) as [a Ha].
  { destruct Hp as [->|[dir ->]]; [by exists EmptyString|].
    exists (dir +:+ "/"). by rewrite append_assoc. }
  assert (∃ segs, split p = segs ++ [name]) as [segs Hsegs].
  { pose proof Hplain as (Hs & _)%is_plain_spec.
    destruct Hp as [->|[dir ->]].
    - exists []. by rewrite split_no_separator.
    - exists (split dir). by rewrite split_append_sep, (split_no_separator name). }
  assert (is_empty p = false) as ->
    by (rewrite Ha; by apply is_empty_append_plain).
  assert (ends_with "/" p = false) as ->
    by (rewrite Ha; by apply ends_with_sep_plain).
  rewrite Hsegs.
  destruct (normalize_segments_snoc (negb (starts_with "/" p)) [] segs name Hplain)
    as [pre ->].
  rewrite join_segments_snoc.
  destruct pre as [|seg pre].
  - pose proof Hplain as (_ & Hne & _)%is_plain_spec.
    destruct name as [|c name]; [done|]. cbn [is_empty].
    destruct (starts_with "/" p); [right; by exists EmptyString | by left].
  - rewrite <-append_assoc, is_empty_append_plain by done.
    rewrite append_assoc.
    destruct (starts_with "/" p); right.
    + exists ("/" +:+ join_segments (seg :: pre)). by rewrite !append_assoc.
    + by exists (join_segments (seg :: pre)).
Qed.

Lemma join_plain_last dir name :
  is_plain name = true →
  join [dir; name] = name ∨ ∃ d, join [dir; name] = d +:+ "/" +:+ name.
Proof.
  intros Hplain. pose proof Hplain as (_ & Hne & _)%is_plain_spec.
  unfold join. destruct dir as [|c dir], name as [|e name]; try done.
  - apply normalize_plain_last; [done | by left].
  - apply normalize_plain_last; [done | right]. by exists (String c dir).
Qed.

(** Joining a directory and a plain name keeps the name as base name. *)
Theorem basename_join dir name :
  is_plain name = true → basename (join [dir; name]) = name.
Proof.
  intros Hplain. destruct (join_plain_last dir name Hplain) as [->|[d ->]].
  - by apply basename_of_plain.
  - by apply basename_after_sep.
Qed.

End PathFacts.

(** ** The monad and the platform *)

Section MonadFacts.

Lemma bind_inr {A B} (m : M A) (k : A → M B) w b w' :
  (m ≫= k) w = (inr b, w') →
  ∃ a w1, m w = (inr a, w1) ∧ k a w1 = (inr b, w').
Proof.
  unfold mbind, M_bind. destruct (m w) as [[e|a] w1]; [done|]. eauto.
Qed.

Lemma bind_run {A B} (m : M A) (k : A → M B) w a w1 :
  m w = (inr a, w1) → (m ≫= k) w = k a w1.
Proof. unfold mbind, M_bind. by intros ->. Qed.

End MonadFacts.

Section PlatformFacts.
Context (env : Env).

Ltac run :=
  unfold mbind, M_bind, mret, M_ret, throw, get_world, set_files, external,
    console_emit, when_, record, store, logged in *; cbn beta iota in *.

Ltac run_inv H := run; intros H; repeat case_match; simplify_eq.

Lemma external_inr ev w u w' :
  external env ev w = (inr u, w') → w' = record ev w.
Proof. run_inv H. done. Qed.

Lemma fs_mkdtemp_inr prefix w p w' :
  fs_mkdtemp env prefix w = (inr p, w') →
  p = prefix +:+ mkdtemp_suffix env w ∧
  files w !! p = None ∧
  w' = store (<[p := Dir]> (files w)) (record (EvMkdtemp prefix) w).
Proof.
  unfold fs_mkdtemp. run_inv H. by case_bool_decide.
Qed.

Lemma fs_writeFile_inr p data w u w' :
  fs_writeFile env p data w = (inr u, w') →
  w' = store (<[p := File data]> (files w)) (record (EvWriteFile p) w).
Proof. unfold fs_writeFile. run_inv H. done. Qed.

Lemma fs_readFile_inr p w content w' :
  fs_readFile env p w = (inr content, w') →
  files w !! p = Some (File content) ∧ w' = record (EvReadFile p) w.
Proof. unfold fs_readFile. run_inv H. done. Qed.

Lemma fs_rm_inr p w u w' :
  fs_rm env p w = (inr u, w') →
  w' = store (filter (λ kv, within p kv.1 = false) (files w)) (record (EvRm p) w).
Proof. unfold fs_rm. run_inv H. done. Qed.

Lemma fs_rm_inl p w e w' :
  fs_rm env p w = (inl e, w') →
  io_fault env w (EvRm p) = Some e ∧ w' = record (EvRm p) w.
Proof. unfold fs_rm. run_inv H. done. Qed.

Lemma mammoth_convertToHtml_inr opts w r w' :
  mammoth_convertToHtml env opts w = (inr r, w') →
  (∃ content, files w !! mo_path opts = Some (File content) ∧
              mammoth_convert env content (styleMap opts) = inr r) ∧
  w' = record (EvConvertToHtml (mo_path opts)) w.
Proof. unfold mammoth_convertToHtml. run_inv H. eauto. Qed.

Lemma mammoth_extractRawText_inr p w r w' :
  mammoth_extractRawText env p w = (inr r, w') →
  (∃ content, files w !! p = Some (File content) ∧
              mammoth_rawText env content = inr r) ∧
  w' = record (EvExtractRawText p) w.
Proof. unfold mammoth_extractRawText. run_inv H. eauto. Qed.

Lemma browser_newPage_inr w page w' :
  browser_newPage env w = (inr page, w') → w' = record EvNewPage w.
Proof. unfold browser_newPage. run_inv H. done. Qed.

Lemma file_of_url_file p : file_of_url ("file://" +:+ p) = Some p.
Proof. reflexivity. Qed.

Lemma page_goto_inr page p w page' w' :
  page_goto env page ("file://" +:+ p) w = (inr page', w') →
  files w !! p = Some (File (document page')) ∧
  w' = record (EvGoto ("file://" +:+ p)) w.
Proof.
  unfold page_goto. rewrite file_of_url_file. run_inv H. done.
Qed.

Lemma page_evaluate_offsetHeight_inr page sel w h w' :
  page_evaluate_offsetHeight env page sel w = (inr h, w') →
  h = default 0 (offsetHeight env (document page) sel) ∧
  w' = record (EvEvaluate sel) w.
Proof. unfold page_evaluate_offsetHeight. run_inv H. done. Qed.

Lemma page_pdf_inr page opts w u w' :
  page_pdf env page opts w = (inr u, w') →
  w' = store (<[pdf_path opts := File (render_pdf env (document page) opts)]> (files w))
         (record (EvPdf opts) w).
Proof. unfold page_pdf. run_inv H. done. Qed.

(** A call that fails has been recorded, and has changed nothing else. *)
Lemma fs_mkdtemp_inl prefix w e w' :
  fs_mkdtemp env prefix w = (inl e, w') → w' = record (EvMkdtemp prefix) w.
Proof. unfold fs_mkdtemp. run_inv H; done. Qed.

Lemma fs_writeFile_inl p data w e w' :
  fs_writeFile env p data w = (inl e, w') → w' = record (EvWriteFile p) w.
Proof. unfold fs_writeFile. run_inv H; done. Qed.

(** Mammoth rejects the file: the call fails, with Mammoth's error or
    with one of the platform. *)
Lemma mammoth_convertToHtml_rejected opts content e w :
  files w !! mo_path opts = Some (File content) →
  mammoth_convert env content (styleMap opts) = inl e →
  ∃ e', mammoth_convertToHtml env opts w
        = (inl e', record (EvConvertToHtml (mo_path opts)) w).
Proof.
  intros Hfile Hm.
  unfold mammoth_convertToHtml, mbind, M_bind, get_world, external, throw.
  cbn beta iota. destruct (io_fault env w _); [by eexists|].
  cbn [files]. rewrite Hfile, Hm. by eexists.
Qed.

(** The calls when nothing fails. *)
Lemma external_run ev w :
  io_fault env w ev = None → external env ev w = (inr tt, record ev w).
Proof. unfold external. by intros ->. Qed.

Lemma fs_mkdtemp_run prefix w :
  let p := prefix +:+ mkdtemp_suffix env w in
  io_fault env w (EvMkdtemp prefix) = None →
  is_dir (files w !! dirname p) = true →
  files w !! p = None →
  fs_mkdtemp env prefix w
  = (inr p, store (<[p := Dir]> (files w)) (record (EvMkdtemp prefix) w)).
Proof.
  intros p Hfault Hdir Hfresh. unfold fs_mkdtemp, mbind, M_bind, get_world.
  rewrite (external_run _ _ Hfault). cbn [files record].
  fold p. rewrite Hdir, bool_decide_eq_true_2 by done. reflexivity.
Qed.

Lemma fs_writeFile_run p data w :
  io_fault env w (EvWriteFile p) = None →
  writable (files w) p = true →
  fs_writeFile env p data w
  = (inr tt, store (<[p := File data]> (files w)) (record (EvWriteFile p) w)).
Proof.
  intros Hfault Hw. unfold fs_writeFile, mbind, M_bind, get_world.
  rewrite (external_run _ _ Hfault). cbn [files record]. by rewrite Hw.
Qed.

Lemma mammoth_extractRawText_run p content r w :
  io_fault env w (EvExtractRawText p) = None →
  files w !! p = Some (File content) →
  mammoth_rawText env content = inr r →
  mammoth_extractRawText env p w = (inr r, record (EvExtractRawText p) w).
Proof.
  intros Hfault Hfile Hraw. unfold mammoth_extractRawText, mbind, M_bind, get_world.
  rewrite (external_run _ _ Hfault). cbn [files record]. by rewrite Hfile, Hraw.
Qed.

End PlatformFacts.

(** ** The conversion pipeline *)

Section PipelineFacts.
Context (env : Env).

Lemma world_eta w : mkWorld (files w) (console w) (trace w) = w.
Proof. by destruct w. Qed.

Lemma log_messages_inr ms w u w' :
  when_ (0 <? length ms)%nat (console_log "Mammoth conversion messages:" ms) w
    = (inr u, w') →
  w' = mkWorld (files w) (console w ++ messages_log ms) (trace w).
Proof.
  unfold when_, messages_log. destruct (0 <? length ms)%nat.
  - by intros [= <-].
  - intros [= <-]. by rewrite app_nil_r, world_eta.
Qed.

Lemma measure_heights_inr (preserveHeaders : bool) page w heights w' :
  (if preserveHeaders then
     headerHeight ← page_evaluate_offsetHeight env page ".header";
     footerHeight ← page_evaluate_offsetHeight env page ".footer";
     mret (headerHeight, footerHeight)
   else mret (0, 0)) w = (inr heights, w') →
  heights = measuredHeights env preserveHeaders (document page) ∧
  w' = mkWorld (files w) (console w)
         (trace w ++ if preserveHeaders
                     then [EvEvaluate ".header"; EvEvaluate ".footer"] else []).
Proof.
  destruct preserveHeaders; simpl.
  - intros H.
    apply bind_inr in H as (hh & w1 & H1 & H).
    apply page_evaluate_offsetHeight_inr in H1 as (-> & ->).
    apply bind_inr in H as (fh & w2 & H2 & H).
    apply page_evaluate_offsetHeight_inr in H2 as (-> & ->).
    injection H as <- <-. split; [done|].
    unfold record; simpl. by rewrite <-app_assoc.
  - intros [= <- <-]. by rewrite app_nil_r, world_eta.
Qed.

(** The clean-up never throws: a failure of [fs.rm] becomes a warning. *)
Lemma cleanup_run tempDir w :
  let cleanup :=
    try_catch (fs_rm env tempDir)
      (λ cleanupErr,
         console_warn "Warning: Failed to clean up temporary files" cleanupErr) in
  cleanup w =
    (inr tt,
     match io_fault env w (EvRm tempDir) with
     | None =>
         store (filter (λ kv, within tempDir kv.1 = false) (files w))
           (record (EvRm tempDir) w)
     | Some cleanupErr =>
         logged (ConsoleWarn "Warning: Failed to clean up temporary files" cleanupErr)
           (record (EvRm tempDir) w)
     end).
Proof.
  unfold try_catch, fs_rm, external, mbind, M_bind, get_world, set_files,
    console_warn, console_emit; simpl.
  by destruct (io_fault env w (EvRm tempDir)).
Qed.

Lemma pipeline_inr fileBuffer originalFilename outputDir cfg preserveHeaders
    w outputPath pdfBuffer w' :
  pipeline env fileBuffer originalFilename outputDir cfg preserveHeaders w
    = (inr (outputPath, pdfBuffer), w') →
  let tempDir := tempDirOf env "doc-convert-" w in
  ∃ htmlContent messages,
    let doc := wrappedDocument originalFilename cfg preserveHeaders htmlContent in
    let heights := measuredHeights env preserveHeaders doc in
    let opts := pdfOptions outputPath cfg preserveHeaders heights.1 heights.2 in
    mammoth_convert env fileBuffer mammothStyleMap = inr (htmlContent, messages) ∧
    outputPath = Path.join [outputDir; pdfName originalFilename] ∧
    pdfBuffer = render_pdf env doc opts ∧
    files w' !! outputPath = Some (File pdfBuffer) ∧
    files w !! tempDir = None ∧
    trace w' = trace w ++ pipeline_events env tempDir preserveHeaders opts ∧
    cleaned_up tempDir
      (files_written (files w) tempDir outputPath fileBuffer doc pdfBuffer)
      (console w ++ messages_log messages) w'.
Proof.
  intros H. unfold pipeline in H.
  apply bind_inr in H as (tempDir & w1 & H1 & H).
  apply fs_mkdtemp_inr in H1 as (-> & Hfresh & ->).
  apply bind_inr in H as ([] & w2 & H2 & H). apply fs_writeFile_inr in H2 as ->.
  apply bind_inr in H as ([htmlContent messages] & w3 & H3 & H).
  apply mammoth_convertToHtml_inr in H3 as ((content & Hc & Hm) & ->).
  cbn [files store record mo_path styleMap] in Hc, Hm.
  rewrite lookup_insert_eq in Hc. injection Hc as <-.
  apply bind_inr in H as ([] & w4 & H4 & H). apply log_messages_inr in H4 as ->.
  apply bind_inr in H as ([] & w5 & H5 & H). apply fs_writeFile_inr in H5 as ->.
  apply bind_inr in H as ([] & w6 & H6 & H). apply external_inr in H6 as ->.
  apply bind_inr in H as (page0 & w7 & H7 & H). apply browser_newPage_inr in H7 as ->.
  apply bind_inr in H as (page & w8 & H8 & H).
  apply page_goto_inr in H8 as (Hdoc & ->).
  cbn [files store record] in Hdoc.
  rewrite lookup_insert_eq in Hdoc. injection Hdoc as Hdoc.
  apply bind_inr in H as (heights & w9 & H9 & H).
  apply measure_heights_inr in H9 as (-> & ->).
  destruct page as [doc]. cbn [document] in *. subst doc.
  apply bind_inr in H as ([] & w10 & H10 & H). apply page_pdf_inr in H10 as ->.
  apply bind_inr in H as ([] & w11 & H11 & H). apply external_inr in H11 as ->.
  apply bind_inr in H as ([] & w12 & H12 & H).
  rewrite cleanup_run in H12.
  destruct (io_fault env _ (EvRm _)) as [cleanupErr|] in H12;
    injection H12 as <-;
    apply bind_inr in H as (pdf & w13 & H13 & H);
    apply fs_readFile_inr in H13 as (Hpdf & ->);
    injection H as <- <- <-; cbn zeta; exists htmlContent, messages;
    unfold wrappedDocument, tempDirOf, cleaned_up, files_written in *;
    cbn [files console trace store record logged pdf_path pdfOptions] in *;
    pose proof Hpdf as Hrender.
  - rewrite lookup_insert_eq in Hrender. injection Hrender as <-.
    split_and!; try done; [|by eauto].
    unfold pipeline_events. by rewrite <-!app_assoc.
  - apply map_lookup_filter_Some in Hrender as [Hrender _].
    rewrite lookup_insert_eq in Hrender. injection Hrender as <-.
    split_and!; try done; [|by eauto].
    unfold pipeline_events. by rewrite <-!app_assoc.
Qed.
End PipelineFacts.

(** ** The output name *)

Module NameFacts.
Import JsString JsStringFacts Path PathFacts.







(** The output name of a [.docx] name: the stem and [.pdf]. *)
Lemma pdfName_docx stem ext :
  lower ext = ".docx" → pdfName (stem +:+ ext) = stem +:+ ".pdf".
Proof. intros Hext. by apply replace_lit_end_i_match. Qed.

(** Any other name is kept. *)
Lemma pdfName_other name : ¬ ends_in_docx name → pdfName name = name.
Proof.
  intros Hno. apply replace_lit_end_i_no_match.
  intros stem ext -> Hext. apply Hno. by exists stem, ext.
Qed.


End NameFacts.

(** ** [convertDocxToPdf]: the shape of a call *)

Section ConvertFacts.

Context (env : Env).

Lemma package_inr rt outputPath pdf w r w' :
  package rt outputPath pdf w = (inr r, w') →
  w' = w ∧
  ((rt = "buffer" ∧ r = mkResult (Some pdf) (Path.basename outputPath) None) ∨
   (rt = "file" ∧ r = mkResult None outputPath None) ∨
   (rt = "base64" ∧
    r = mkResult None (Path.basename outputPath) (Some (Base64.encode pdf)))).
Proof.
  unfold package. repeat case_bool_decide; subst; try done;
    intros [= <- <-]; split; auto.
Qed.

Lemma package_invalid rt outputPath pdf w :
  ¬ valid_returnType rt →
  package rt outputPath pdf w
    = (inl (mkError ("Invalid returnType specified: " +:+ rt)), w).
Proof.
  unfold valid_returnType, package. intros Hrt.
  repeat case_bool_decide; subst; try done; exfalso; auto.
Qed.

Lemma convertDocxToPdf_catch_run e w :
  convertDocxToPdf_catch e w
    = (inl (mkError ("Failed to convert DOCX document to PDF: " +:+ message e)),
       logged (ConsoleError "Error converting DOCX to PDF:" e) w).
Proof. reflexivity. Qed.

(** The function is its [try] block under its [catch] block. *)
Lemma convertDocxToPdf_unfold fileBuffer originalFilename options formatOptions w :
  convertDocxToPdf env fileBuffer originalFilename options formatOptions w =
    match convertDocxToPdf_try env fileBuffer originalFilename
            (returnTypeOf options) (outputDirOf env options)
            (pageConfigOf formatOptions) (preserveHeadersOf formatOptions) w with
    | (inr r, w') => (inr r, w')
    | (inl e, w') => convertDocxToPdf_catch e w'
    end.
Proof. reflexivity. Qed.

(** A result comes from a run of the pipeline that succeeded. *)
Lemma convertDocxToPdf_inr fileBuffer originalFilename options formatOptions w r w' :
  convertDocxToPdf env fileBuffer originalFilename options formatOptions w
    = (inr r, w') →
  ∃ pdf,
    pipeline env fileBuffer originalFilename (outputDirOf env options)
      (pageConfigOf formatOptions) (preserveHeadersOf formatOptions) w
      = (inr (outputPathOf env options originalFilename, pdf), w') ∧
    package (returnTypeOf options) (outputPathOf env options originalFilename) pdf w'
      = (inr r, w').
Proof.
  rewrite convertDocxToPdf_unfold.
  destruct (convertDocxToPdf_try _ _ _ _ _ _ _ _) as [[e|r'] w1] eqn:Htry;
    [by rewrite convertDocxToPdf_catch_run|].
  intros [= -> ->]. unfold convertDocxToPdf_try in Htry.
  apply bind_inr in Htry as ([outputPath pdf] & w1 & Hpipe & Hpack).
  pose proof Hpipe as Hrun.
  apply pipeline_inr in Hrun as (? & ? & _ & -> & _).
  pose proof Hpack as [-> _]%package_inr. by exists pdf.
Qed.

(** A run of the pipeline that succeeded gives a result for a valid
    return type. *)
Lemma convertDocxToPdf_of_pipeline fileBuffer originalFilename options formatOptions
    w outputPath pdf w' :
  pipeline env fileBuffer originalFilename (outputDirOf env options)
    (pageConfigOf formatOptions) (preserveHeadersOf formatOptions) w
    = (inr (outputPath, pdf), w') →
  convertDocxToPdf env fileBuffer originalFilename options formatOptions w =
    match package (returnTypeOf options) outputPath pdf w' with
    | (inr r, w'') => (inr r, w'')
    | (inl e, w'') => convertDocxToPdf_catch e w''
    end.
Proof.
  intros Hpipe. rewrite convertDocxToPdf_unfold. unfold convertDocxToPdf_try.
  by rewrite (bind_run _ _ _ _ _ Hpipe).
Qed.

(** A result comes with the PDF in the file at the output path. *)
Lemma convertDocxToPdf_success fileBuffer originalFilename options formatOptions
    w r w' :
  convertDocxToPdf env fileBuffer originalFilename options formatOptions w
    = (inr r, w') →
  ∃ pdf,
    files w' !! outputPathOf env options originalFilename = Some (File pdf) ∧
    package (returnTypeOf options) (outputPathOf env options originalFilename) pdf w'
      = (inr r, w').
Proof.
  intros Hrun.
  apply convertDocxToPdf_inr in Hrun as (pdf & Hpipe & Hpack).
  apply pipeline_inr in Hpipe as (html & ms & _ & _ & _ & Hfile & _).
  by exists pdf.
Qed.

End ConvertFacts.

(** ** [extractDocumentMetadata]: the shape of a call *)

Section MetadataFacts.

Context (env : Env).

Lemma fs_writeFile_writable p data w u w' :
  fs_writeFile env p data w = (inr u, w') → writable (files w) p = true.
Proof.
  unfold fs_writeFile, mbind, M_bind, external, get_world, throw, set_files.
  cbn beta iota. intros H. repeat case_match; by simplify_eq.
Qed.

Lemma extractDocumentMetadata_catch_run e w :
  extractDocumentMetadata_catch e w
    = (inr defaultMetadata,
       logged (ConsoleError "Failed to extract document metadata:" e) w).
Proof. reflexivity. Qed.

(** The function is its [try] block under its [catch] block. *)
Lemma extractDocumentMetadata_unfold fileBuffer w :
  extractDocumentMetadata env fileBuffer w =
    match extractDocumentMetadata_try env fileBuffer w with
    | (inr metadata, w') => (inr metadata, w')
    | (inl e, w') => extractDocumentMetadata_catch e w'
    end.
Proof. reflexivity. Qed.

(** What the [try] block does when nothing fails. *)
Lemma extractDocumentMetadata_try_inr fileBuffer w metadata w' :
  extractDocumentMetadata_try env fileBuffer w = (inr metadata, w') →
  let tempDir := tempDirOf env "doc-meta-" w in
  let tempFilePath := Path.join [tempDir; "temp.docx"] in
  ∃ value ms,
    mammoth_rawText env fileBuffer = inr (value, ms) ∧
    metadata =
      mkMetadata (suggestFormat (String.length value)) (String.length value)
        (some_message_includes "header" ms) (some_message_includes "footer" ms) ms ∧
    files w !! tempDir = None ∧
    tempFilePath ≠ tempDir ∧
    w' = mkWorld (<[tempFilePath := File fileBuffer]> (<[tempDir := Dir]> (files w)))
           (console w)
           (trace w ++ [EvMkdtemp (Path.join [os_tmpdir env; "doc-meta-"]);
                        EvWriteFile tempFilePath; EvExtractRawText tempFilePath]).
Proof.
  intros H. unfold extractDocumentMetadata_try in H.
  apply bind_inr in H as (tempDir & w1 & H1 & H).
  apply fs_mkdtemp_inr in H1 as (-> & Hfresh & ->).
  apply bind_inr in H as ([] & w2 & H2 & H).
  pose proof (fs_writeFile_writable _ _ _ _ _ H2) as Hw.
  apply fs_writeFile_inr in H2 as ->.
  apply bind_inr in H as ([value ms] & w3 & H3 & H).
  apply mammoth_extractRawText_inr in H3 as ((content & Hc & Hm) & ->).
  cbn [files store record] in Hc, Hw.
  rewrite lookup_insert_eq in Hc. injection Hc as <-.
  injection H as <- <-. cbn zeta. exists value, ms.
  unfold tempDirOf. split_and!; try done.
  - intros Heq. unfold writable in Hw. rewrite Heq, lookup_insert_eq in Hw.
    by rewrite andb_false_r in Hw.
  - unfold record, store. simpl. by rewrite <-!app_assoc.
Qed.

(** What the [try] block gives when nothing fails and Mammoth extracts
    [value]. *)
Lemma extractDocumentMetadata_try_run fileBuffer w value ms :
  let tempDir := tempDirOf env "doc-meta-" w in
  let tempFilePath := Path.join [tempDir; "temp.docx"] in
  (∀ w0 ev, io_fault env w0 ev = None) →
  is_dir (files w !! dirname tempDir) = true →
  files w !! tempDir = None →
  writable (<[tempDir := Dir]> (files w)) tempFilePath = true →
  mammoth_rawText env fileBuffer = inr (value, ms) →
  ∃ w',
    extractDocumentMetadata_try env fileBuffer w
    = (inr (mkMetadata (suggestFormat (String.length value)) (String.length value)
              (some_message_includes "header" ms)
              (some_message_includes "footer" ms) ms), w').
Proof.
  intros tempDir tempFilePath Hfault Hdir Hfresh Hw Hraw.
  unfold extractDocumentMetadata_try.
  rewrite (bind_run _ _ _ _ _ (fs_mkdtemp_run env _ _ (Hfault _ _) Hdir Hfresh)).
  fold (tempDirOf env "doc-meta-" w). fold tempDir. fold tempFilePath.
  set (w1 := store (<[tempDir := Dir]> (files w)) _).
  rewrite (bind_run _ _ _ _ _
             (fs_writeFile_run env tempFilePath fileBuffer w1 (Hfault _ _) Hw)).
  set (w2 := store _ _).
  rewrite (bind_run _ _ _ _ _
             (mammoth_extractRawText_run env tempFilePath fileBuffer (value, ms) w2
                (Hfault _ _) (lookup_insert_eq _ _ _) Hraw)).
  by eexists.
Qed.

Lemma suggestFormat_by_length len : suggestFormat len = format_by_length len.
Proof.
  unfold suggestFormat, format_by_length.
  destruct (Nat.ltb_spec 3000 len), (Nat.ltb_spec 500 len),
    (Nat.leb_spec len 500), (Nat.leb_spec len 3000); done || lia.
Qed.

Lemma suggestFormat_not_empty len : JsString.is_empty (suggestFormat len) = false.
Proof. unfold suggestFormat. by repeat case_match. Qed.

Lemma extractDocumentMetadata_total fileBuffer w :
  ∃ metadata w', extractDocumentMetadata env fileBuffer w = (inr metadata, w').
Proof.
  rewrite extractDocumentMetadata_unfold.
  destruct (extractDocumentMetadata_try env fileBuffer w) as [[e|metadata] w1];
    rewrite ?extractDocumentMetadata_catch_run; eauto.
Qed.

(** A guess carries the format for its own length, and a format that is
    not empty. *)
Lemma extractDocumentMetadata_format fileBuffer w metadata w' :
  extractDocumentMetadata env fileBuffer w = (inr metadata, w') →
  suggestedFormat metadata = format_by_length (contentLength metadata) ∧
  JsString.is_empty (suggestedFormat metadata) = false.
Proof.
  rewrite extractDocumentMetadata_unfold.
  destruct (extractDocumentMetadata_try env fileBuffer w) as [[e|md] w1] eqn:Htry.
  - rewrite extractDocumentMetadata_catch_run. by intros [= <- <-].
  - intros [= <- <-].
    apply extractDocumentMetadata_try_inr in Htry as (value & ms & _ & -> & _).
    simpl. by rewrite suggestFormat_by_length, <-suggestFormat_by_length,
      suggestFormat_not_empty.
Qed.

(** X12.  The temporary directory of [extractDocumentMetadata] and the
    file in it are still there when the [try] block has run: the function
    never removes them. *)
Lemma extractDocumentMetadata_keeps_tempDir fileBuffer w metadata w' :
  extractDocumentMetadata_try env fileBuffer w = (inr metadata, w') →
  let tempDir := tempDirOf env "doc-meta-" w in
  files w' !! tempDir = Some Dir ∧
  files w' !! Path.join [tempDir; "temp.docx"] = Some (File fileBuffer).
Proof.
  intros (value & ms & _ & _ & _ & Hne & ->)%extractDocumentMetadata_try_inr.
  simpl. split.
  - rewrite lookup_insert_ne by done. apply lookup_insert_eq.
  - apply lookup_insert_eq.
Qed.

End MetadataFacts.

(** * The claims about [convertDocxToPdf] *)

Section Claims.

Context (env : Env).

(** C1, as amended.  A return type outside [buffer], [file] and [base64]
    always makes the call fail, and no result is returned.  The check is the
    last statement of the [try] block: when the same conversion succeeds
    for a valid return type, the invalid one fails with the message
    [Failed to convert DOCX document to PDF: Invalid returnType specified: <value>],
    which names the value, the error is logged, and by then the whole
    pipeline has run: temporary directory, file writes, conversion,
    rendering, clean-up and read-back are in the trace. *)
Theorem invalid_returnType_rejected_last
    fileBuffer originalFilename rt dir formatOptions w :
  ¬ valid_returnType rt →
  (∃ e w',
     convertDocxToPdf env fileBuffer originalFilename (mkOptions (Some rt) dir)
       formatOptions w = (inl e, w')) ∧
  (∀ r wb,
     convertDocxToPdf env fileBuffer originalFilename (mkOptions (Some "buffer") dir)
       formatOptions w = (inr r, wb) →
     convertDocxToPdf env fileBuffer originalFilename (mkOptions (Some rt) dir)
       formatOptions w
     = (inl (mkError ("Failed to convert DOCX document to PDF: "
                      +:+ "Invalid returnType specified: " +:+ rt)),
        logged (ConsoleError "Error converting DOCX to PDF:"
                  (mkError ("Invalid returnType specified: " +:+ rt))) wb) ∧
     ∃ opts,
       trace wb = trace w ++
         pipeline_events env (tempDirOf env "doc-convert-" w)
           (preserveHeadersOf formatOptions) opts).
Proof.
  intros Hrt. split.
  - rewrite convertDocxToPdf_unfold.
    destruct (convertDocxToPdf_try _ _ _ _ _ _ _ _) as [[e|r] w1] eqn:Htry.
    + rewrite convertDocxToPdf_catch_run. eauto.
    + unfold convertDocxToPdf_try in Htry.
      apply bind_inr in Htry as ([outputPath pdf] & w2 & _ & Hpack).
      apply package_inr in Hpack as [_ Hvalid]. destruct Hrt.
      unfold valid_returnType. unfold returnTypeOf in Hvalid. simpl in Hvalid.
      destruct Hvalid as [[? _]|[[? _]|[? _]]]; auto.
  - intros r wb Hbuffer.
    apply convertDocxToPdf_inr in Hbuffer as (pdf & Hpipe & _).
    split.
    + rewrite (convertDocxToPdf_of_pipeline env _ _ (mkOptions (Some rt) dir)
                 _ _ _ _ _ Hpipe).
      unfold returnTypeOf; simpl. by rewrite package_invalid.
    + apply pipeline_inr in Hpipe as (html & ms & _ & _ & _ & _ & _ & Htrace & _).
      eauto.
Qed.

(** C5.  When the conversion returns a buffer for [returnType = 'buffer'],
    the same call with [returnType = 'base64'] returns a string, and
    decoding that string gives the bytes of the buffer. *)
Theorem base64_decodes_to_buffer fileBuffer originalFilename dir formatOptions
    w rb w' :
  convertDocxToPdf env fileBuffer originalFilename (mkOptions (Some "buffer") dir)
    formatOptions w = (inr rb, w') →
  ∃ r64 text,
    convertDocxToPdf env fileBuffer originalFilename (mkOptions (Some "base64") dir)
      formatOptions w = (inr r64, w') ∧
    base64 r64 = Some text ∧
    buffer rb = Some (Base64.decode text).
Proof.
  intros Hbuffer.
  apply convertDocxToPdf_inr in Hbuffer as (pdf & Hpipe & Hpack).
  apply package_inr in Hpack as [_ [[_ ->]|[[? _]|[? _]]]]; try done.
  exists (mkResult None
            (Path.basename (outputPathOf env (mkOptions (Some "buffer") dir)
                              originalFilename))
            (Some (Base64.encode pdf))), (Base64.encode pdf).
  split_and!; [|done|].
  - by rewrite (convertDocxToPdf_of_pipeline env _ _ (mkOptions (Some "base64") dir)
                  _ _ _ _ _ Hpipe).
  - simpl. by rewrite Base64Facts.decode_encode.
Qed.

(** C6.  Whatever fails in the [try] block, in the extraction or in the
    render stage, is caught: the error is logged, and the call throws a
    new error whose message is the generic one followed by the message of
    the original.  A result is returned only when the whole block ran. *)
Theorem conversion_failure_is_wrapped fileBuffer originalFilename options
    formatOptions w :
  (∀ e w1,
     convertDocxToPdf_try env fileBuffer originalFilename (returnTypeOf options)
       (outputDirOf env options) (pageConfigOf formatOptions)
       (preserveHeadersOf formatOptions) w = (inl e, w1) →
     convertDocxToPdf env fileBuffer originalFilename options formatOptions w
     = (inl (mkError ("Failed to convert DOCX document to PDF: " +:+ message e)),
        logged (ConsoleError "Error converting DOCX to PDF:" e) w1)) ∧
  (∀ r w',
     convertDocxToPdf env fileBuffer originalFilename options formatOptions w
       = (inr r, w') →
     convertDocxToPdf_try env fileBuffer originalFilename (returnTypeOf options)
       (outputDirOf env options) (pageConfigOf formatOptions)
       (preserveHeadersOf formatOptions) w = (inr r, w')).
Proof.
  rewrite convertDocxToPdf_unfold. split.
  - intros e w1 ->. apply convertDocxToPdf_catch_run.
  - intros r w'.
    destruct (convertDocxToPdf_try _ _ _ _ _ _ _ _) as [[e|r'] w1];
      [by rewrite convertDocxToPdf_catch_run | done].
Qed.


End Claims.

(** * The claims about [extractDocumentMetadata], [smartConvertDocxToPdf]
    and the output name *)

Section MoreClaims.

Context (env : Env).

(** C3.  When the text of a document is extracted, that is, the calls of
    the platform do not fail, the temporary directory can be made and
    written to, and Mammoth extracts [value] from the buffer, then
    [extractDocumentMetadata] returns a guess whose content length is the
    length [L] of that text, and whose format is [A4] for [L <= 500],
    [Letter] for [500 < L <= 3000] and [A4] for [L > 3000]. *)
Theorem format_selected_by_length fileBuffer w value ms :
  let tempDir := tempDirOf env "doc-meta-" w in
  let tempFilePath := Path.join [tempDir; "temp.docx"] in
  (∀ w0 ev, io_fault env w0 ev = None) →
  is_dir (files w !! dirname tempDir) = true →
  files w !! tempDir = None →
  writable (<[tempDir := Dir]> (files w)) tempFilePath = true →
  mammoth_rawText env fileBuffer = inr (value, ms) →
  ∃ metadata w',
    extractDocumentMetadata env fileBuffer w = (inr metadata, w') ∧
    contentLength metadata = String.length value ∧
    ((String.length value ≤ 500)%nat → suggestedFormat metadata = "A4") ∧
    ((500 < String.length value ≤ 3000)%nat →
     suggestedFormat metadata = "Letter") ∧
    ((3000 < String.length value)%nat → suggestedFormat metadata = "A4").
Proof.
  intros tempDir tempFilePath Hfault Hdir Hfresh Hw Hraw.
  destruct (extractDocumentMetadata_try_run env fileBuffer w value ms
              Hfault Hdir Hfresh Hw Hraw) as (w' & Htry).
  eexists _, w'. split.
  { by rewrite extractDocumentMetadata_unfold, Htry. }
  cbn [contentLength suggestedFormat]. split; [done|].
  rewrite suggestFormat_by_length. unfold format_by_length. split_and!.
  - intros Hlen. by rewrite (proj2 (Nat.leb_le _ _) Hlen).
  - intros Hlen. rewrite (proj2 (Nat.leb_gt _ _)) by lia.
    by rewrite (proj2 (Nat.leb_le _ _)) by lia.
  - intros Hlen. by rewrite !(proj2 (Nat.leb_gt _ _)) by lia.
Qed.

(** C4.  [extractDocumentMetadata] always returns a guess, for every
    buffer and in every world; when anything in its [try] block fails,
    the guess is the default one and the failure is only logged. *)
Theorem extractDocumentMetadata_never_throws fileBuffer w :
  ∃ metadata w',
    extractDocumentMetadata env fileBuffer w = (inr metadata, w') ∧
    ∀ e w1,
      extractDocumentMetadata_try env fileBuffer w = (inl e, w1) →
      metadata = mkMetadata "A4" 0 false false [] ∧
      w' = logged (ConsoleError "Failed to extract document metadata:" e) w1.
Proof.
  rewrite extractDocumentMetadata_unfold.
  destruct (extractDocumentMetadata_try env fileBuffer w) as [[e|metadata] w1].
  - rewrite extractDocumentMetadata_catch_run.
    eexists _, _. split; [done|]. by intros ? ? [= <- <-].
  - by eexists _, _.
Qed.

(** C9.  [smartConvertDocxToPdf] is [convertDocxToPdf] on the same
    buffer, name and options, run after [extractDocumentMetadata] with
    the format options made from its guess; the conversion then works
    with the guessed format, margins of one inch and headers preserved
    when the guess has headers or footers. *)
Theorem smartConvert_composes fileBuffer originalFilename options w :
  ∃ metadata w1,
    extractDocumentMetadata env fileBuffer w = (inr metadata, w1) ∧
    smartConvertDocxToPdf env fileBuffer originalFilename options w
      = convertDocxToPdf env fileBuffer originalFilename options
          (smartFormatOptions metadata) w1 ∧
    pageConfigOf (smartFormatOptions metadata)
      = mkFinalPageConfig (suggestedFormat metadata)
          (mkMargin "1in" "1in" "1in" "1in") ∧
    preserveHeadersOf (smartFormatOptions metadata)
      = hasHeaders metadata || hasFooters metadata.
Proof.
  destruct (extractDocumentMetadata_total env fileBuffer w) as (metadata & w1 & Hrun).
  exists metadata, w1. split_and!; [done| |  |done].
  - unfold smartConvertDocxToPdf. by rewrite (bind_run _ _ _ _ _ Hrun).
  - apply extractDocumentMetadata_format in Hrun as [_ Hne].
    unfold pageConfigOf, smartFormatOptions, finalPageConfig. simpl.
    unfold JsString.or_else. by rewrite Hne.
Qed.


(** C10, as amended.  The PDF is written to the output directory joined
    with the original name in which a trailing [.docx], in any letter
    case, is replaced by [.pdf]; a name that does not end in [.docx] is
    joined as it is, no [.pdf] is added.  The file name returned is that
    path for [file] and its base name otherwise, which for a plain name
    that does not end in [.docx] is the original name. *)
Theorem output_path_of_name fileBuffer originalFilename options formatOptions
    w r w' :
  convertDocxToPdf env fileBuffer originalFilename options formatOptions w
    = (inr r, w') →
  let outputPath :=
    Path.join [outputDirOf env options; pdfName originalFilename] in
  (∃ pdf, files w' !! outputPath = Some (File pdf)) ∧
  filename r = (if bool_decide (returnTypeOf options = "file") then outputPath
                else Path.basename outputPath) ∧
  (∀ stem ext, originalFilename = stem +:+ ext → JsString.lower ext = ".docx" →
     pdfName originalFilename = stem +:+ ".pdf") ∧
  (¬ ends_in_docx originalFilename →
     pdfName originalFilename = originalFilename ∧
     (Path.is_plain originalFilename = true → returnTypeOf options ≠ "file" →
      filename r = originalFilename)).
Proof.
  intros Hrun outputPath.
  apply convertDocxToPdf_success in Hrun as (pdf & Hfile & Hpack).
  apply package_inr in Hpack as [_ Hr].
  fold (outputPathOf env options originalFilename) in outputPath.
  assert (filename r = (if bool_decide (returnTypeOf options = "file")
                        then outputPath else Path.basename outputPath)) as Hname.
  { destruct Hr as [[Hrt ->]|[[Hrt ->]|[Hrt ->]]]; rewrite Hrt; done. }
  split_and!; [by exists pdf | done | |].
  - intros stem ext -> Hext. by apply NameFacts.pdfName_docx.
  - intros Hother.
    pose proof (NameFacts.pdfName_other _ Hother) as Hkept.
    split; [done|]. intros Hplain Hrt.
    rewrite Hname, bool_decide_eq_false_2 by done.
    unfold outputPath, outputPathOf. rewrite Hkept.
    by apply PathFacts.basename_join.
Qed.


End MoreClaims.

(** * Runs on the sample platform *)

(** The output name of a [.docx] name is one character shorter. *)
Lemma pdfName_changes_docx name : ends_in_docx name → pdfName name ≠ name.
Proof.
  intros (stem & ext & -> & Hext) Heq.
  rewrite NameFacts.pdfName_docx in Heq by done.
  apply (f_equal String.length) in Heq, Hext.
  rewrite !JsStringFacts.length_append in Heq.
  rewrite JsStringFacts.length_lower in Hext. simpl in Heq, Hext. lia.
Qed.

(** C1, the claim as stated fails.  For [sample.docx] and the return type
    [xyz] the call fails with the error that names [xyz], but only after
    the whole pipeline has run: the trace holds every external call of a
    conversion, and the PDF, absent before, is in the output directory. *)
Lemma returnType_xyz_fails_after_io :
  (Sample.convert Sample.no_fault Sample.docx "sample.docx" (Sample.returning "xyz")).1
    = inl (mkError
        "Failed to convert DOCX document to PDF: Invalid returnType specified: xyz") ∧
  trace Sample.world = [] ∧
  trace (Sample.convert Sample.no_fault Sample.docx "sample.docx" (Sample.returning "xyz")).2 = Sample.events ∧
  files Sample.world !! "/tmp/sample.pdf" = None ∧
  files (Sample.convert Sample.no_fault Sample.docx "sample.docx" (Sample.returning "xyz")).2 !! "/tmp/sample.pdf"
    = Some (File Sample.pdf).
Proof. split_and!; vm_compute; reflexivity. Qed.

(** C2, the code at two inputs.  [extractDocumentMetadata] on a DOCX
    buffer returns its guess and leaves its temporary directory and the
    copy of the document behind; [convertDocxToPdf] on a buffer that is
    not a DOCX throws and leaves its temporary directory behind. *)
Theorem temporary_directories_left_behind :
  ((Sample.analyse Sample.docx).1 = inr (mkMetadata "A4" 5 false false []) ∧
   files Sample.world !! "/tmp/doc-meta-a1B2c3" = None ∧
   files (Sample.analyse Sample.docx).2 !! "/tmp/doc-meta-a1B2c3" = Some Dir ∧
   files (Sample.analyse Sample.docx).2 !! "/tmp/doc-meta-a1B2c3/temp.docx" = Some (File Sample.docx)) ∧
  ((Sample.convert Sample.no_fault Sample.not_docx "sample.docx" Sample.no_options).1
     = inl (mkError ("Failed to convert DOCX document to PDF: "
                     +:+ message Sample.not_a_zip)) ∧
   files Sample.world !! "/tmp/doc-convert-a1B2c3" = None ∧
   files (Sample.convert Sample.no_fault Sample.not_docx "sample.docx" Sample.no_options).2
     !! "/tmp/doc-convert-a1B2c3" = Some Dir).
Proof. split_and!; vm_compute; reflexivity. Qed.


(** C10, the claim as stated fails.  [archive.pdf] does not end in
    [.docx]; with [returnType = 'file'] the file name returned is the
    path [/tmp/archive.pdf], not the original name, and the file written
    there does have the extension [.pdf]. *)
Lemma returned_path_of_pdf_name :
  ¬ ends_in_docx "archive.pdf" ∧
  (Sample.convert Sample.no_fault Sample.docx "archive.pdf" (Sample.returning "file")).1
    = inr (mkResult None "/tmp/archive.pdf" None) ∧
  "/tmp/archive.pdf" ≠ "archive.pdf" ∧
  JsString.ends_with ".pdf" "/tmp/archive.pdf" = true ∧
  files (Sample.convert Sample.no_fault Sample.docx "archive.pdf" (Sample.returning "file")).2
    !! "/tmp/archive.pdf" = Some (File Sample.pdf).
Proof.
  split_and!; try (vm_compute; reflexivity); [|done].
  intros Hdocx. by apply (pdfName_changes_docx _ Hdocx).
Qed.

(** A browser that does not start: the failure of the render stage comes
    back wrapped, and nothing is returned. *)
Example render_failure_is_wrapped :
  (Sample.convert Sample.no_browser Sample.docx "sample.docx" Sample.no_options).1
    = inl (mkError ("Failed to convert DOCX document to PDF: "
                    +:+ "Failed to launch the browser process!")) ∧
  console (Sample.convert Sample.no_browser Sample.docx "sample.docx" Sample.no_options).2
    = [ConsoleError "Error converting DOCX to PDF:"
         (mkError "Failed to launch the browser process!")].
Proof. split; vm_compute; reflexivity. Qed.

(** A temporary directory that cannot be removed: the call still returns
    its result, and the console has the warning. *)
Example cleanup_failure_is_logged :
  (Sample.convert Sample.no_removal Sample.docx "sample.docx" Sample.no_options).1
    = inr (mkResult (Some Sample.pdf) "sample.pdf" None) ∧
  console (Sample.convert Sample.no_removal Sample.docx "sample.docx" Sample.no_options).2
    = [ConsoleWarn "Warning: Failed to clean up temporary files"
         (mkError "EACCES: permission denied, rm")] ∧
  files (Sample.convert Sample.no_removal Sample.docx "sample.docx" Sample.no_options).2
    !! "/tmp/doc-convert-a1B2c3" = Some Dir.
Proof. split_and!; vm_compute; reflexivity. Qed.

(** A conversion that succeeds removes its temporary directory. *)
Example conversion_removes_tempDir :
  (Sample.convert Sample.no_fault Sample.docx "sample.docx" Sample.no_options).1
    = inr (mkResult (Some Sample.pdf) "sample.pdf" None) ∧
  files (Sample.convert Sample.no_fault Sample.docx "sample.docx" Sample.no_options).2
    = {[ "/tmp" := Dir; "/tmp/sample.pdf" := File Sample.pdf ]}.
Proof. split; vm_compute; reflexivity. Qed.

(** The return type [xyz], which is not a valid one, on the sample platform. *)
Lemma invalid_returnType_rejected_last_witness :
  ∃ e w', Sample.convert Sample.no_fault Sample.docx "sample.docx" (Sample.returning "xyz") = (inl e, w').
Proof.
  apply (invalid_returnType_rejected_last Sample.env Sample.docx "sample.docx" "xyz" None
           Sample.no_format Sample.world).
  unfold valid_returnType. intros [H|[H|H]]; discriminate H.
Defined.

(** A text of 1200 characters: the guess has that length and the format
    [Letter]. *)
Lemma format_selected_by_length_witness :
  ∃ metadata w',
    Sized.analysed 1200 = (inr metadata, w') ∧
    contentLength metadata = 1200%nat ∧
    suggestedFormat metadata = "Letter".
Proof.
  destruct (format_selected_by_length (Sized.env 1200) Sample.docx Sample.world
              (Sized.text 1200) [])
    as (metadata & w' & Hrun & Hlen & _ & Hletter & _).
  - reflexivity.
  - vm_compute. reflexivity.
  - vm_compute. reflexivity.
  - vm_compute. reflexivity.
  - vm_compute. reflexivity.
  - exists metadata, w'. split_and!; [exact Hrun | |].
    + rewrite Hlen. vm_compute. reflexivity.
    + apply Hletter. vm_compute. lia.
Defined.

(** The guesses at the two boundaries: 500 characters give [A4] and 501
    [Letter], 3000 give [Letter] and 3001 [A4]. *)
Example format_at_the_boundaries :
  map (λ n, (Sized.analysed n).1) [0; 500; 501; 3000; 3001]%nat
  = [ inr (mkMetadata "A4" 0 false false []);
      inr (mkMetadata "A4" 500 false false []);
      inr (mkMetadata "Letter" 501 false false []);
      inr (mkMetadata "Letter" 3000 false false []);
      inr (mkMetadata "A4" 3001 false false []) ].
Proof. vm_compute. reflexivity. Qed.

(** The sample document converted for [buffer] and for [base64]. *)
Lemma base64_decodes_to_buffer_witness :
  ∃ r64 text,
    Sample.convert Sample.no_fault Sample.docx "sample.docx" (Sample.returning "base64")
      = (inr r64, (Sample.convert Sample.no_fault Sample.docx "sample.docx" (Sample.returning "buffer")).2) ∧
    base64 r64 = Some text ∧
    Some Sample.pdf = Some (Base64.decode text).
Proof.
  apply (base64_decodes_to_buffer Sample.env Sample.docx "sample.docx" None Sample.no_format Sample.world
           (mkResult (Some Sample.pdf) "sample.pdf" None)
           (Sample.convert Sample.no_fault Sample.docx "sample.docx" (Sample.returning "buffer")).2).
  vm_compute. reflexivity.
Defined.

(** A buffer that is not a DOCX: Mammoth's error comes back wrapped. *)
Lemma conversion_failure_is_wrapped_witness :
  Sample.convert Sample.no_fault Sample.not_docx "sample.docx" Sample.no_options
  = (inl (mkError ("Failed to convert DOCX document to PDF: " +:+ message Sample.not_a_zip)),
     logged (ConsoleError "Error converting DOCX to PDF:" Sample.not_a_zip)
       (convertDocxToPdf_try Sample.env Sample.not_docx "sample.docx" "buffer" "/tmp"
          defaultPageConfig true Sample.world).2).
Proof.
  apply (proj1 (conversion_failure_is_wrapped Sample.env Sample.not_docx "sample.docx" Sample.no_options
                  Sample.no_format Sample.world)).
  vm_compute. reflexivity.
Defined.



(** The name [notes.txt] is joined and returned as it is. *)
Lemma output_path_of_name_witness :
  (∃ bytes,
     files (Sample.convert Sample.no_fault Sample.docx "notes.txt" (Sample.returning "buffer")).2
       !! "/tmp/notes.txt" = Some (File bytes)) ∧
  "notes.txt" = Path.basename "/tmp/notes.txt" ∧
  (∀ stem ext, "notes.txt" = stem +:+ ext → JsString.lower ext = ".docx" →
     pdfName "notes.txt" = stem +:+ ".pdf") ∧
  (¬ ends_in_docx "notes.txt" →
     pdfName "notes.txt" = "notes.txt" ∧
     (Path.is_plain "notes.txt" = true → "buffer" ≠ "file" →
      "notes.txt" = "notes.txt")).
Proof.
  apply (output_path_of_name Sample.env Sample.docx "notes.txt" (Sample.returning "buffer") Sample.no_format
           Sample.world (mkResult (Some Sample.pdf) "notes.txt" None)
           (Sample.convert Sample.no_fault Sample.docx "notes.txt" (Sample.returning "buffer")).2).
  vm_compute. reflexivity.
Defined.

(** * Further properties of the module *)

(** ** Strings: what [includes] finds *)

Module IncludesFacts.
Import JsString JsStringFacts.

Lemma includes_unfold needle s :
  includes needle s =
    starts_with needle s ||
    match s with
    | EmptyString => false
    | String _ s' => includes needle s'
    end.
Proof. by destruct s. Qed.

Lemma starts_with_spec p s : starts_with p s = true ↔ ∃ b, s = p +:+ b.
Proof.
  revert s. induction p as [|a p IH]; intros s.
  - split; [by exists s | by destruct s].
  - destruct s as [|c s]; simpl.
    + split; [done | by intros [b Hb]].
    + rewrite andb_true_iff, bool_decide_eq_true, IH. split.
      * intros [-> [b ->]]. by exists b.
      * intros [b Hb]. rewrite append_cons in Hb. injection Hb as -> ->. eauto.
Qed.

Lemma includes_here needle rest : includes needle (needle +:+ rest) = true.
Proof.
  rewrite includes_unfold.
  rewrite (proj2 (starts_with_spec needle (needle +:+ rest))) by eauto. done.
Qed.

Lemma includes_append_l needle a b :
  includes needle b = true → includes needle (a +:+ b) = true.
Proof.
  intros Hb. induction a as [|c a IH]; [done|].
  rewrite append_cons, includes_unfold, IH. apply orb_true_r.
Qed.

(** [includes] is what it says: the needle lies somewhere in the string. *)
Lemma includes_spec needle s :
  includes needle s = true ↔ ∃ a b, s = a +:+ needle +:+ b.
Proof.
  split.
  - induction s as [|c s IH]; rewrite includes_unfold, orb_true_iff.
    + intros [[b ->]%starts_with_spec|?]; [|done]. by exists EmptyString, b.
    + intros [[b ->]%starts_with_spec|H]; [by exists EmptyString, b|].
      destruct (IH H) as (a & b & ->). by exists (String c a), b.
  - intros (a & b & ->). apply includes_append_l, includes_here.
Qed.

Lemma concat_app l1 l2 : concat (l1 ++ l2) = concat l1 +:+ concat l2.
Proof.
  induction l1 as [|x l1 IH]; [done|].
  unfold concat in *. simpl. by rewrite IH, append_assoc.
Qed.

(** Consecutive parts of a template lie in the text it makes. *)
Lemma includes_concat pre mid post :
  includes (concat mid) (concat (pre ++ mid ++ post)) = true.
Proof. rewrite !concat_app. apply includes_append_l, includes_here. Qed.

End IncludesFacts.

Section Layout.
Import JsString IncludesFacts.

(** X1.  Every field of the final page configuration is a non-empty
    string: a format or margin side that is non-empty is kept as given,
    and one that is missing or empty falls back to [A4] or [1in], also
    when only some sides of the margin are given. *)
Theorem finalPageConfig_defaults pageConfig :
  let final := finalPageConfig pageConfig in
  (is_empty (format final) = false ∧
   is_empty (m_top (margin final)) = false ∧
   is_empty (m_right (margin final)) = false ∧
   is_empty (m_bottom (margin final)) = false ∧
   is_empty (m_left (margin final)) = false) ∧
  (∀ f, pc_format pageConfig = Some f → is_empty f = false → format final = f) ∧
  (pc_format pageConfig = None ∨ pc_format pageConfig = Some EmptyString →
   format final = "A4") ∧
  (∀ m v, pc_margin pageConfig = Some m → is_empty v = false →
     (mc_top m = Some v → m_top (margin final) = v) ∧
     (mc_right m = Some v → m_right (margin final) = v) ∧
     (mc_bottom m = Some v → m_bottom (margin final) = v) ∧
     (mc_left m = Some v → m_left (margin final) = v)) ∧
  (∀ m, pc_margin pageConfig = Some m →
     (mc_top m = None ∨ mc_top m = Some EmptyString →
      m_top (margin final) = "1in") ∧
     (mc_right m = None ∨ mc_right m = Some EmptyString →
      m_right (margin final) = "1in") ∧
     (mc_bottom m = None ∨ mc_bottom m = Some EmptyString →
      m_bottom (margin final) = "1in") ∧
     (mc_left m = None ∨ mc_left m = Some EmptyString →
      m_left (margin final) = "1in")) ∧
  (pc_margin pageConfig = None → margin final = mkMargin "1in" "1in" "1in" "1in").
Proof.
  destruct pageConfig as [f m]. unfold finalPageConfig, margin_side, or_else. simpl.
  split_and!.
  - by destruct f as [[|??]|].
  - by destruct m as [[[[|??]|] ? ? ?]|].
  - by destruct m as [[? [[|??]|] ? ?]|].
  - by destruct m as [[? ? [[|??]|] ?]|].
  - by destruct m as [[? ? ? [[|??]|]]|].
  - by intros ? [= ->] ->.
  - by intros [->| ->].
  - intros ? v [= ->] Hv. simpl. split_and!; by intros ->; rewrite Hv.
  - intros ? [= ->]. simpl. split_and!; by intros [->| ->].
  - by intros ->.
Qed.

(** A string that the replacement changes has a match at its end. *)
Lemma replace_lit_end_i_changed lit by_ s :
  replace_lit_end_i lit by_ s ≠ s →
  ∃ stem ext, s = stem +:+ ext ∧ lower ext = lower lit.
Proof.
  induction s as [|c s IH]; rewrite JsStringFacts.replace_lit_end_i_unfold.
  - destruct (matches_lit_end lit EmptyString) eqn:Hm; [|done].
    intros _. exists EmptyString, EmptyString.
    split; [done|]. by apply JsStringFacts.matches_lit_end_lower.
  - destruct (matches_lit_end lit (String c s)) eqn:Hm.
    + intros _. exists EmptyString, (String c s).
      split; [done|]. by apply JsStringFacts.matches_lit_end_lower.
    + intros Hne. destruct IH as (stem & ext & -> & Hext); [congruence|].
      by exists (String c stem), ext.
Qed.

(** X2.  The output name is stable: a name the renaming has produced is
    not renamed again, and it never ends in [.docx]. *)
Theorem pdfName_idempotent name :
  pdfName (pdfName name) = pdfName name ∧ ¬ ends_in_docx (pdfName name).
Proof.
  assert (∀ stem, ¬ ends_in_docx (stem +:+ ".pdf")) as Hpdf.
  { intros stem (s & e & Heq & He).
    assert (String.length e = 5%nat) as Hlen
      by (apply (f_equal String.length) in He;
          by rewrite JsStringFacts.length_lower in He).
    revert s Heq. induction stem as [|c stem IH]; intros s Heq.
    - rewrite JsStringFacts.append_nil in Heq.
      apply (f_equal String.length) in Heq.
      rewrite JsStringFacts.length_append in Heq. simpl in Heq. lia.
    - rewrite JsStringFacts.append_cons in Heq. destruct s as [|c' s].
      + rewrite JsStringFacts.append_nil in Heq. subst e.
        simpl in Hlen. injection Hlen as Hlen.
        rewrite JsStringFacts.length_append in Hlen. simpl in Hlen.
        destruct stem as [|d stem]; [|simpl in Hlen; lia].
        rewrite JsStringFacts.append_nil in He. by simpl in He.
      + rewrite JsStringFacts.append_cons in Heq. injection Heq as _ Heq.
        by apply (IH s). }
  destruct (decide (pdfName name = name)) as [Hsame|Hchanged].
  - rewrite Hsame. split; [done|]. intros Hdocx.
    by apply (pdfName_changes_docx _ Hdocx).
  - assert (ends_in_docx name) as (stem & ext & -> & Hext).
    { by apply (replace_lit_end_i_changed ".docx" ".pdf"). }
    rewrite NameFacts.pdfName_docx by done.
    split; [|apply Hpdf]. by apply NameFacts.pdfName_other.
Qed.

End Layout.

(** ** The paths a call changes *)

Section FrameFacts.

Context (env : Env).

Lemma touches_only_ret {A} P (a : A) : touches_only P (mret a).
Proof. by intros w r w' [= <- <-]. Qed.

Lemma touches_only_throw {A} P e : touches_only P (throw (A := A) e).
Proof. by intros w r w' [= <- <-]. Qed.

Lemma touches_only_bind {A B} P (m : M A) (k : A → M B) :
  touches_only P m → (∀ a, touches_only P (k a)) → touches_only P (m ≫= k).
Proof.
  intros Hm Hk w r w' Hrun p Hp. unfold mbind, M_bind in Hrun.
  destruct (m w) as [[e|a] w1] eqn:Hmw.
  - injection Hrun as <- <-. by eapply Hm.
  - rewrite (Hk a _ _ _ Hrun p Hp). by eapply Hm.
Qed.

Lemma touches_only_external P ev : touches_only P (external env ev).
Proof.
  intros w r w' Hrun p _. unfold external in Hrun.
  by destruct (io_fault env w ev); injection Hrun as <- <-.
Qed.

Lemma touches_only_console P entry : touches_only P (console_emit entry).
Proof. by intros w r w' [= <- <-]. Qed.

Lemma touches_only_writeFile P path data :
  P path → touches_only P (fs_writeFile env path data).
Proof.
  intros Hpath. unfold fs_writeFile.
  apply touches_only_bind; [apply touches_only_external|intros _].
  intros w r w' Hrun p Hp. unfold mbind, M_bind, get_world in Hrun.
  destruct (writable (files w) path).
  - injection Hrun as <- <-. simpl. apply lookup_insert_ne. by intros ->.
  - by injection Hrun as <- <-.
Qed.

Lemma touches_only_mammoth_extractRawText P path :
  touches_only P (mammoth_extractRawText env path).
Proof.
  unfold mammoth_extractRawText.
  apply touches_only_bind; [apply touches_only_external|intros _].
  intros w r w' Hrun p Hp. unfold mbind, M_bind, get_world in Hrun.
  by repeat case_match; injection Hrun as <- <-.
Qed.

End FrameFacts.

Section FrameOfCalls.

Context (env : Env).

Ltac frame :=
  repeat first
    [ apply touches_only_ret
    | apply touches_only_throw
    | apply (touches_only_external env)
    | apply touches_only_console
    | apply (touches_only_mammoth_extractRawText env)
    | apply (touches_only_writeFile env); tauto
    | apply touches_only_bind; [|intros ?]
    | match goal with
      | |- touches_only _ (let '(_, _) := ?x in _) => destruct x
      | |- touches_only _ (if ?b then _ else _) => destruct b
      end ].

(** A block that starts with [fs.mkdtemp]: the directory made is the one
    of the world the block starts in. *)
Lemma mkdtemp_bind_frame {A} (P : string → Prop) prefix (k : string → M A) w r w' :
  P (prefix +:+ mkdtemp_suffix env w) →
  touches_only P (k (prefix +:+ mkdtemp_suffix env w)) →
  (fs_mkdtemp env prefix ≫= k) w = (r, w') →
  ∀ p, ¬ P p → files w' !! p = files w !! p.
Proof.
  intros Hdir Hk Hrun p Hp. unfold mbind, M_bind in Hrun.
  destruct (fs_mkdtemp env prefix w) as [[e|tempDir] w1] eqn:Hmk.
  - injection Hrun as <- <-. revert Hmk.
    unfold fs_mkdtemp, mbind, M_bind, get_world, external, throw, set_files, mret, M_ret.
    cbn beta iota. intros Hmk. by repeat case_match; simplify_eq.
  - apply fs_mkdtemp_inr in Hmk as (-> & Hfresh & ->).
    rewrite (Hk _ _ _ Hrun p Hp). simpl.
    apply lookup_insert_ne. by intros <-.
Qed.

(** Whatever a run of the [try] block of [extractDocumentMetadata] does,
    it leaves every path alone but those of its temporary directory. *)
Lemma extractDocumentMetadata_try_frame fileBuffer w r w' :
  extractDocumentMetadata_try env fileBuffer w = (r, w') →
  ∀ p, ¬ metadata_paths (tempDirOf env "doc-meta-" w) p →
       files w' !! p = files w !! p.
Proof.
  unfold extractDocumentMetadata_try. apply mkdtemp_bind_frame.
  - by left.
  - fold (tempDirOf env "doc-meta-" w). unfold metadata_paths. frame.
Qed.

End FrameOfCalls.

Section RunFacts.

Context (env : Env).

Lemma page_pdf_writable page opts w u w' :
  page_pdf env page opts w = (inr u, w') → writable (files w) (pdf_path opts) = true.
Proof.
  unfold page_pdf, mbind, M_bind, external, get_world, throw, set_files.
  cbn beta iota. intros H. repeat case_match; by simplify_eq.
Qed.

(** A buffer that Mammoth rejects stops the pipeline at the conversion, if
    not before. *)
Lemma pipeline_rejected fileBuffer originalFilename outputDir cfg preserveHeaders w e :
  mammoth_convert env fileBuffer mammothStyleMap = inl e →
  let tempDir := tempDirOf env "doc-convert-" w in
  let tempFilePath := Path.join [tempDir; "input.docx"] in
  ∃ e' w',
    pipeline env fileBuffer originalFilename outputDir cfg preserveHeaders w
      = (inl e', w') ∧
    (∃ calls,
       trace w' = trace w ++ calls ∧
       calls `prefix_of`
         [EvMkdtemp (Path.join [os_tmpdir env; "doc-convert-"]);
          EvWriteFile tempFilePath; EvConvertToHtml tempFilePath]) ∧
    (∀ p, p ≠ tempDir → p ≠ tempFilePath → files w' !! p = files w !! p).
Proof.
  intros Hm tempDir tempFilePath. unfold pipeline, mbind at 1, M_bind at 1.
  destruct (fs_mkdtemp env _ w) as [[e1|dir] w1] eqn:H1.
  { apply fs_mkdtemp_inl in H1 as ->. exists e1. eexists. split; [done|].
    split; [|done]. eexists. split; [done|]. by eexists [_; _]. }
  apply fs_mkdtemp_inr in H1 as (-> & Hfresh & ->).
  fold (tempDirOf env "doc-convert-" w). fold tempDir. fold tempFilePath.
  set (w1 := store (<[tempDir := Dir]> (files w)) _).
  unfold mbind at 1, M_bind at 1.
  destruct (fs_writeFile env tempFilePath fileBuffer w1) as [[e2|[]] w2] eqn:H2.
  { apply fs_writeFile_inl in H2 as ->. exists e2. eexists. split; [done|]. split.
    - eexists. split; [cbn; by rewrite <-app_assoc|]. by eexists [_].
    - intros p Hp _. cbn. by apply lookup_insert_ne. }
  apply fs_writeFile_inr in H2 as ->.
  set (w2 := store (<[tempFilePath := File fileBuffer]> (files w1)) _).
  unfold mbind at 1, M_bind at 1.
  destruct (mammoth_convertToHtml_rejected env
              (mkMammothOptions tempFilePath mammothStyleMap) fileBuffer e w2)
    as (e3 & ->); [apply lookup_insert_eq | done |].
  exists e3. eexists. split; [done|]. split.
  - eexists. split; [cbn; by rewrite <-!app_assoc|]. by exists [].
  - intros p Hp Hp'. cbn. rewrite lookup_insert_ne by done. by apply lookup_insert_ne.
Qed.

(** X8.  A buffer that Mammoth rejects: in every world the call throws,
    and it throws before the browser is launched.  The external calls
    are [fs.mkdtemp], the write of [input.docx] and Mammoth's conversion,
    as far as they get, and the file system has changed at most at the
    temporary directory and [input.docx] in it: every other path, the
    output path among them, holds after the call what it held before. *)
Theorem rejected_document_stops_before_launch fileBuffer originalFilename options
    formatOptions w e :
  mammoth_convert env fileBuffer mammothStyleMap = inl e →
  let tempDir := tempDirOf env "doc-convert-" w in
  let tempFilePath := Path.join [tempDir; "input.docx"] in
  ∃ e' w',
    convertDocxToPdf env fileBuffer originalFilename options formatOptions w
      = (inl e', w') ∧
    (∃ calls,
       trace w' = trace w ++ calls ∧
       calls `prefix_of`
         [EvMkdtemp (Path.join [os_tmpdir env; "doc-convert-"]);
          EvWriteFile tempFilePath; EvConvertToHtml tempFilePath]) ∧
    (∀ p, p ≠ tempDir → p ≠ tempFilePath → files w' !! p = files w !! p).
Proof.
  intros Hm tempDir tempFilePath.
  destruct (pipeline_rejected fileBuffer originalFilename (outputDirOf env options)
              (pageConfigOf formatOptions) (preserveHeadersOf formatOptions) w e Hm)
    as (e1 & w1 & Hpipe & Htrace & Hfiles).
  rewrite convertDocxToPdf_unfold. unfold convertDocxToPdf_try, mbind, M_bind.
  rewrite Hpipe, convertDocxToPdf_catch_run.
  eexists _, _. split; [done|]. by split.
Qed.

(** X10.  Whether its [try] block succeeds or fails,
    [extractDocumentMetadata] changes the file system only at its
    temporary directory and the copy of the document in it. *)
Theorem extractDocumentMetadata_touches_only fileBuffer w r w' :
  extractDocumentMetadata env fileBuffer w = (r, w') →
  ∀ p, ¬ metadata_paths (tempDirOf env "doc-meta-" w) p →
       files w' !! p = files w !! p.
Proof.
  rewrite extractDocumentMetadata_unfold.
  destruct (extractDocumentMetadata_try env fileBuffer w) as [[e|md] w1] eqn:Htry;
    rewrite ?extractDocumentMetadata_catch_run; intros [= <- <-] p Hp;
    exact (extractDocumentMetadata_try_frame env _ _ _ _ Htry p Hp).
Qed.

End RunFacts.

(** ** What a conversion that succeeds does *)

Section ConversionFacts.

Context (env : Env).

(** X4.  What a conversion that succeeds computes: Mammoth turns the
    buffer into HTML under the style map, the HTML is wrapped, and the
    PDF is what the browser prints for the wrapped document with the
    options of [page.pdf].  That PDF is in the file at the output path; it
    is the buffer for [buffer], the text for [base64] decodes to it, and
    for [file] the file name returned is the path of that file. *)
Theorem conversion_renders_wrapped_document fileBuffer originalFilename options
    formatOptions w r w' :
  convertDocxToPdf env fileBuffer originalFilename options formatOptions w
    = (inr r, w') →
  ∃ htmlContent diagnostics pdf,
    mammoth_convert env fileBuffer mammothStyleMap = inr (htmlContent, diagnostics) ∧
    let doc :=
      String.list_byte_of_string
        (completeHtml originalFilename (pageConfigOf formatOptions)
           (preserveHeadersOf formatOptions) htmlContent) in
    let heights := measuredHeights env (preserveHeadersOf formatOptions) doc in
    pdf = render_pdf env doc
            (pdfOptions (outputPathOf env options originalFilename)
               (pageConfigOf formatOptions) (preserveHeadersOf formatOptions)
               heights.1 heights.2) ∧
    files w' !! outputPathOf env options originalFilename = Some (File pdf) ∧
    (returnTypeOf options = "buffer" → buffer r = Some pdf) ∧
    (returnTypeOf options = "base64" →
     ∃ text, base64 r = Some text ∧ Base64.decode text = pdf) ∧
    (returnTypeOf options = "file" →
     files w' !! filename r = Some (File pdf)).
Proof.
  intros Hrun.
  apply convertDocxToPdf_inr in Hrun as (pdf & Hpipe & Hpack).
  apply pipeline_inr in Hpipe as (html & ms & Hm & _ & Hpdf & Hfile & _).
  exists html, ms, pdf. split; [done|]. cbn zeta. split_and!; try done.
  - intros Hrt. apply package_inr in Hpack as [_ [[_ ->]|[[? _]|[? _]]]];
      [reflexivity|congruence..].
  - intros Hrt. apply package_inr in Hpack as [_ [[? _]|[[? _]|[_ ->]]]];
      [congruence..|].
    eexists. split; [reflexivity|]. apply Base64Facts.decode_encode.
  - intros Hrt. apply package_inr in Hpack as [_ [[? _]|[[_ ->]|[? _]]]];
      [congruence|exact Hfile|congruence].
Qed.

(** X5.  The external calls of a conversion that succeeds, in order:
    [mkdtemp], the DOCX written, Mammoth, the HTML written, browser
    launch, new page, [goto], the two height measurements only when headers
    are preserved, [page.pdf], browser close, [rm], read-back.  With
    headers preserved [page.pdf] gets the measured heights plus 36 pixels
    as top and bottom margins, not the configured ones; without, it gets
    the configured margins and empty header and footer templates. *)
Theorem conversion_call_sequence fileBuffer originalFilename options
    formatOptions w r w' :
  convertDocxToPdf env fileBuffer originalFilename options formatOptions w
    = (inr r, w') →
  ∃ htmlContent diagnostics,
    mammoth_convert env fileBuffer mammothStyleMap = inr (htmlContent, diagnostics) ∧
    let cfg := pageConfigOf formatOptions in
    let preserveHeaders := preserveHeadersOf formatOptions in
    let doc :=
      String.list_byte_of_string
        (completeHtml originalFilename cfg preserveHeaders htmlContent) in
    let heights := measuredHeights env preserveHeaders doc in
    let opts :=
      pdfOptions (outputPathOf env options originalFilename) cfg preserveHeaders
        heights.1 heights.2 in
    trace w' = trace w ++
      pipeline_events env (tempDirOf env "doc-convert-" w) preserveHeaders opts ∧
    (preserveHeaders = true →
     m_top (pdf_margin opts) = pretty (heights.1 + 36) +:+ "px" ∧
     m_bottom (pdf_margin opts) = pretty (heights.2 + 36) +:+ "px" ∧
     m_right (pdf_margin opts) = m_right (margin cfg) ∧
     m_left (pdf_margin opts) = m_left (margin cfg)) ∧
    (preserveHeaders = false →
     pdf_margin opts = margin cfg ∧
     headerTemplate opts = EmptyString ∧ footerTemplate opts = EmptyString).
Proof.
  intros Hrun.
  apply convertDocxToPdf_inr in Hrun as (pdf & Hpipe & _).
  apply pipeline_inr in Hpipe as (html & ms & Hm & _ & _ & _ & _ & Htrace & _).
  exists html, ms. split; [done|]. cbn zeta. split; [exact Htrace|].
  unfold pdfOptions. split.
  - by intros ->.
  - intros ->. simpl. by destruct (margin (pageConfigOf formatOptions)).
Qed.

(** X6.  A conversion that succeeds writes to the console Mammoth's
    diagnostics, once and only when there are any, then at most the
    warning of a clean-up that failed, and nothing else. *)
Theorem conversion_console fileBuffer originalFilename options formatOptions
    w r w' :
  convertDocxToPdf env fileBuffer originalFilename options formatOptions w
    = (inr r, w') →
  ∃ htmlContent diagnostics warning,
    mammoth_convert env fileBuffer mammothStyleMap = inr (htmlContent, diagnostics) ∧
    console w' = console w ++
      (if bool_decide (diagnostics = []) then []
       else [ConsoleLog "Mammoth conversion messages:" diagnostics]) ++ warning ∧
    (warning = [] ∨
     ∃ cleanupErr,
       warning = [ConsoleWarn "Warning: Failed to clean up temporary files"
                    cleanupErr]).
Proof.
  intros Hrun.
  apply convertDocxToPdf_inr in Hrun as (pdf & Hpipe & _).
  apply pipeline_inr in Hpipe as (html & ms & Hm & _ & _ & _ & _ & _ & Hclean).
  assert (messages_log ms =
          (if bool_decide (ms = []) then []
           else [ConsoleLog "Mammoth conversion messages:" ms])) as Hlog
    by by destruct ms.
  rewrite Hlog in Hclean.
  destruct Hclean as [[_ Hc]|(cleanupErr & _ & Hc)].
  - exists html, ms, []. rewrite app_nil_r. auto.
  - exists html, ms, [ConsoleWarn "Warning: Failed to clean up temporary files"
                       cleanupErr].
    rewrite <-app_assoc in Hc. eauto.
Qed.

(** The directory of the output path is there when [page.pdf] writes. *)
Lemma pipeline_inr_output_directory fileBuffer originalFilename outputDir cfg
    preserveHeaders w outputPath pdf w' :
  pipeline env fileBuffer originalFilename outputDir cfg preserveHeaders w
    = (inr (outputPath, pdf), w') →
  files w !! dirname outputPath = Some Dir ∨
  dirname outputPath = tempDirOf env "doc-convert-" w.
Proof.
  intros H. pose proof H as Hrun.
  apply pipeline_inr in Hrun as (html & ms & _ & -> & _).
  unfold pipeline in H.
  apply bind_inr in H as (tempDir & w1 & H1 & H).
  apply fs_mkdtemp_inr in H1 as (-> & Hfresh & ->).
  apply bind_inr in H as ([] & w2 & H2 & H). apply fs_writeFile_inr in H2 as ->.
  apply bind_inr in H as ([htmlContent messages] & w3 & H3 & H).
  apply mammoth_convertToHtml_inr in H3 as (_ & ->).
  apply bind_inr in H as ([] & w4 & H4 & H). apply log_messages_inr in H4 as ->.
  apply bind_inr in H as ([] & w5 & H5 & H). apply fs_writeFile_inr in H5 as ->.
  apply bind_inr in H as ([] & w6 & H6 & H). apply external_inr in H6 as ->.
  apply bind_inr in H as (page0 & w7 & H7 & H). apply browser_newPage_inr in H7 as ->.
  apply bind_inr in H as (page & w8 & H8 & H).
  apply page_goto_inr in H8 as (_ & ->).
  apply bind_inr in H as (heights & w9 & H9 & H).
  apply measure_heights_inr in H9 as (-> & ->).
  apply bind_inr in H as ([] & w10 & H10 & _).
  apply page_pdf_writable in H10.
  unfold writable in H10. apply andb_true_iff in H10 as [Hdir _].
  cbn [files store record pdf_path pdfOptions] in Hdir.
  fold (tempDirOf env "doc-convert-" w) in *.
  set (d := dirname (Path.join [outputDir; pdfName originalFilename])) in *.
  rewrite !lookup_insert in Hdir.
  repeat case_decide; try done; [by right|].
  left. by destruct (files w !! d) as [[]|].
Qed.

(** X9.  The output directory is never created: when the directory of
    the output path does not exist before the call (and is not the
    temporary directory the call makes), the call fails. *)
Theorem conversion_needs_output_directory fileBuffer originalFilename options
    formatOptions w :
  let outputPath := outputPathOf env options originalFilename in
  files w !! dirname outputPath ≠ Some Dir →
  dirname outputPath ≠ tempDirOf env "doc-convert-" w →
  ∃ e w',
    convertDocxToPdf env fileBuffer originalFilename options formatOptions w
      = (inl e, w').
Proof.
  intros outputPath Hmissing Hother.
  destruct (convertDocxToPdf env fileBuffer originalFilename options formatOptions w)
    as [[e|r] w'] eqn:Hrun; [by eauto|].
  apply convertDocxToPdf_inr in Hrun as (pdf & Hpipe & _).
  apply pipeline_inr_output_directory in Hpipe as [?|?]; done.
Qed.

End ConversionFacts.

(** ** The analysis and the smart converter *)

Section AnalysisFacts.

Context (env : Env).

Lemma some_message_includes_spec word ms :
  some_message_includes word ms = true ↔
  ∃ m before after, In m ms ∧ msg_message m = before +:+ word +:+ after.
Proof.
  unfold some_message_includes. rewrite existsb_exists. split.
  - intros (m & Hin & (a & b & Hm)%IncludesFacts.includes_spec). eauto.
  - intros (m & a & b & Hin & Hm). exists m. split; [done|].
    apply IncludesFacts.includes_spec. eauto.
Qed.

(** X11.  When the text is extracted, the guess carries Mammoth's
    diagnostics unchanged; [hasHeaders] holds exactly when the message of
    some diagnostic contains [header], [hasFooters] when one contains
    [footer], both in lower case as written; nothing is logged and the
    external calls are [mkdtemp], [writeFile] and [extractRawText]. *)
Theorem metadata_flags_from_diagnostics fileBuffer w metadata w' :
  extractDocumentMetadata_try env fileBuffer w = (inr metadata, w') →
  ∃ value diagnostics,
    mammoth_rawText env fileBuffer = inr (value, diagnostics) ∧
    extractDocumentMetadata env fileBuffer w = (inr metadata, w') ∧
    messages metadata = diagnostics ∧
    (hasHeaders metadata = true ↔
     ∃ m before after,
       In m diagnostics ∧ msg_message m = before +:+ "header" +:+ after) ∧
    (hasFooters metadata = true ↔
     ∃ m before after,
       In m diagnostics ∧ msg_message m = before +:+ "footer" +:+ after) ∧
    console w' = console w ∧
    trace w' = trace w ++
      [EvMkdtemp (Path.join [os_tmpdir env; "doc-meta-"]);
       EvWriteFile (Path.join [tempDirOf env "doc-meta-" w; "temp.docx"]);
       EvExtractRawText (Path.join [tempDirOf env "doc-meta-" w; "temp.docx"])].
Proof.
  intros Htry. pose proof Htry as Hrun.
  apply extractDocumentMetadata_try_inr in Hrun
    as (value & ms & Hraw & -> & _ & _ & ->).
  exists value, ms. split_and!; try done.
  - by rewrite extractDocumentMetadata_unfold, Htry.
  - apply some_message_includes_spec.
  - apply some_message_includes_spec.
Qed.

(** X13.  When the analysis fails, [smartConvertDocxToPdf] does not
    stop: the failure is logged and the conversion runs all the same, with
    the format [A4], margins of one inch and headers not preserved. *)
Theorem smartConvert_after_failed_analysis fileBuffer originalFilename options
    w e w1 :
  extractDocumentMetadata_try env fileBuffer w = (inl e, w1) →
  smartConvertDocxToPdf env fileBuffer originalFilename options w
  = convertDocxToPdf env fileBuffer originalFilename options
      (mkFormatOptions
         (Some (mkPageConfig (Some "A4")
                  (Some (mkMarginConfig (Some "1in") (Some "1in")
                                        (Some "1in") (Some "1in")))))
         (Some false))
      (logged (ConsoleError "Failed to extract document metadata:" e) w1).
Proof.
  intros Htry. unfold smartConvertDocxToPdf.
  assert (extractDocumentMetadata env fileBuffer w
          = (inr defaultMetadata,
             logged (ConsoleError "Failed to extract document metadata:" e) w1))
    as Hrun by by rewrite extractDocumentMetadata_unfold, Htry.
  by rewrite (bind_run _ _ _ _ _ Hrun).
Qed.

End AnalysisFacts.

(** ** The layout wrapper *)

Section Wrapper.
Import JsString IncludesFacts.

Lemma includes_concat_here part parts :
  includes part (concat (part :: parts)) = true.
Proof. apply includes_here. Qed.

Lemma includes_concat_skip needle part parts :
  includes needle (concat parts) = true →
  includes needle (concat (part :: parts)) = true.
Proof. apply includes_append_l. Qed.

Lemma includes_concat_in needle part parts :
  includes needle part = true →
  includes needle (concat (part :: parts)) = true.
Proof.
  intros (a & b & ->)%includes_spec. apply includes_spec.
  exists a, (b +:+ concat parts). unfold concat. simpl.
  by rewrite !JsStringFacts.append_assoc.
Qed.

Ltac find_part :=
  repeat first [ apply includes_concat_here | apply includes_concat_skip ].

(** X3.  The layout wrapper copies its inputs as they are: the complete
    document contains the extracted HTML, the original file name and the
    style sheet verbatim, nothing is escaped, and the style sheet
    contains the page format and the four margins in the order top,
    right, bottom, left. *)
Theorem completeHtml_embeds_verbatim originalFilename cfg preserveHeaders
    htmlContent :
  let page := completeHtml originalFilename cfg preserveHeaders htmlContent in
  includes htmlContent page = true ∧
  includes originalFilename page = true ∧
  includes (css cfg) page = true ∧
  includes (format cfg) (css cfg) = true ∧
  includes (m_top (margin cfg) +:+ " " +:+ m_right (margin cfg) +:+ " "
            +:+ m_bottom (margin cfg) +:+ " " +:+ m_left (margin cfg))
    (css cfg) = true.
Proof.
  cbn zeta. split_and!.
  - unfold completeHtml. cbn zeta. destruct preserveHeaders.
    + do 9 apply includes_concat_skip. apply includes_concat_in. by find_part.
    + by find_part.
  - unfold completeHtml. cbn zeta. by find_part.
  - unfold completeHtml. cbn zeta. by find_part.
  - unfold css. by find_part.
  - unfold css. do 3 apply includes_concat_skip.
    apply includes_spec. exists EmptyString. eexists.
    unfold concat. cbn [foldr].
    rewrite JsStringFacts.append_nil, !JsStringFacts.append_assoc. reflexivity.
Qed.

End Wrapper.

(** ** Runs on the sample platforms *)

(** A buffer that is not a DOCX: the call throws, the browser has not
    been launched and no PDF has been written. *)
Lemma rejected_document_stops_before_launch_witness :
  ∃ e' w',
    Sample.convert Sample.no_fault Sample.not_docx "sample.docx" Sample.no_options
      = (inl e', w') ∧
    (EvLaunch ∉ trace w') ∧
    files w' !! "/tmp/sample.pdf" = None.
Proof.
  destruct (rejected_document_stops_before_launch Sample.env Sample.not_docx
              "sample.docx" Sample.no_options Sample.no_format Sample.world
              Sample.not_a_zip)
    as (e' & w' & Hrun & (calls & Htrace & [rest Hcalls]) & Hfiles).
  - reflexivity.
  - exists e', w'. split_and!; [exact Hrun | |].
    + rewrite Htrace. simpl. intros Hin.
      assert (EvLaunch ∈ calls ++ rest) as Hin' by (apply elem_of_app; by left).
      rewrite <-Hcalls in Hin'.
      repeat (apply elem_of_cons in Hin' as [Hin'|Hin']; [discriminate Hin'|]).
      by apply elem_of_nil in Hin'.
    + rewrite Hfiles; [reflexivity| |]; vm_compute; discriminate.
Defined.

(** The analysis of the sample document leaves [/tmp] as it was. *)
Lemma extractDocumentMetadata_touches_only_witness :
  files (Sample.analyse Sample.docx).2 !! "/tmp" = files Sample.world !! "/tmp".
Proof.
  apply (extractDocumentMetadata_touches_only Sample.env Sample.docx Sample.world
           (Sample.analyse Sample.docx).1).
  - vm_compute. reflexivity.
  - intros [H|H]; vm_compute in H; discriminate H.
Defined.

(** The sample document, converted for [buffer]. *)
Lemma conversion_renders_wrapped_document_witness :
  ∃ htmlContent diagnostics pdf,
    mammoth_convert Sample.env Sample.docx mammothStyleMap
      = inr (htmlContent, diagnostics) ∧
    pdf = render_pdf Sample.env
            (wrappedDocument "sample.docx" defaultPageConfig true htmlContent)
            (pdfOptions "/tmp/sample.pdf" defaultPageConfig true 0 0) ∧
    buffer (mkResult (Some Sample.pdf) "sample.pdf" None) = Some pdf.
Proof.
  destruct (conversion_renders_wrapped_document Sample.env Sample.docx "sample.docx"
              (Sample.returning "buffer") Sample.no_format Sample.world
              (mkResult (Some Sample.pdf) "sample.pdf" None)
              (Sample.convert Sample.no_fault Sample.docx "sample.docx"
                 (Sample.returning "buffer")).2)
    as (html & ms & pdf & Hm & Hpdf & _ & Hbuffer & _).
  - vm_compute. reflexivity.
  - exists html, ms, pdf. split_and!; [exact Hm | exact Hpdf | by apply Hbuffer].
Defined.

(** The diagnosed document: header and footer of twelve pixels give
    margins of 48 pixels. *)
Lemma conversion_call_sequence_witness :
  trace Diagnosed.converted.2
  = pipeline_events Diagnosed.env "/tmp/doc-convert-a1B2c3" true
      (mkPdfOptions "/tmp/sample.pdf" "A4" (mkMargin "48px" "1in" "48px" "1in")
         true true (pdfHeaderTemplate true) (pdfFooterTemplate true)).
Proof.
  destruct (conversion_call_sequence Diagnosed.env Sample.docx "sample.docx"
              Sample.no_options Sample.no_format Sample.world
              (mkResult (Some Sample.pdf) "sample.pdf" None)
              Diagnosed.converted.2)
    as (html & ms & _ & Htrace & _).
  - vm_compute. reflexivity.
  - vm_compute. vm_compute in Htrace. exact Htrace.
Defined.

(** The diagnosed document: the diagnostics are logged once. *)
Lemma conversion_console_witness :
  ∃ htmlContent diagnostics warning,
    mammoth_convert Diagnosed.env Sample.docx mammothStyleMap
      = inr (htmlContent, diagnostics) ∧
    console Diagnosed.converted.2 = console Sample.world ++
      (if bool_decide (diagnostics = []) then []
       else [ConsoleLog "Mammoth conversion messages:" diagnostics]) ++ warning ∧
    (warning = [] ∨
     ∃ cleanupErr,
       warning = [ConsoleWarn "Warning: Failed to clean up temporary files"
                    cleanupErr]).
Proof.
  apply (conversion_console Diagnosed.env Sample.docx "sample.docx"
           Sample.no_options Sample.no_format Sample.world
           (mkResult (Some Sample.pdf) "sample.pdf" None)).
  vm_compute. reflexivity.
Defined.

(** No directory [output] in the sample world: the conversion fails. *)
Lemma conversion_needs_output_directory_witness :
  ∃ e w',
    convertDocxToPdf Sample.env Sample.docx "sample.docx"
      (mkOptions (Some "file") (Some "./output")) Sample.no_format Sample.world
    = (inl e, w').
Proof.
  apply (conversion_needs_output_directory Sample.env Sample.docx "sample.docx"
           (mkOptions (Some "file") (Some "./output")) Sample.no_format
           Sample.world).
  - vm_compute. discriminate.
  - vm_compute. discriminate.
Defined.

(** The diagnosed document: a diagnostic mentions [header], none [footer]. *)
Lemma metadata_flags_from_diagnostics_witness :
  ∃ value diagnostics,
    mammoth_rawText Diagnosed.env Sample.docx = inr (value, diagnostics) ∧
    extractDocumentMetadata Diagnosed.env Sample.docx Sample.world
    = (inr (mkMetadata "A4" 5 true false Diagnosed.diagnostics),
       (extractDocumentMetadata Diagnosed.env Sample.docx Sample.world).2).
Proof.
  destruct (metadata_flags_from_diagnostics Diagnosed.env Sample.docx Sample.world
              (mkMetadata "A4" 5 true false Diagnosed.diagnostics)
              (extractDocumentMetadata Diagnosed.env Sample.docx Sample.world).2)
    as (value & ms & Hraw & Hrun & _).
  - vm_compute. reflexivity.
  - by exists value, ms.
Defined.

(** A buffer that is not a DOCX: the analysis fails, the conversion is
    run all the same, and it is its error that comes back. *)
Lemma smartConvert_after_failed_analysis_witness :
  smartConvertDocxToPdf Sample.env Sample.not_docx "sample.docx" Sample.no_options
    Sample.world
  = convertDocxToPdf Sample.env Sample.not_docx "sample.docx" Sample.no_options
      (mkFormatOptions
         (Some (mkPageConfig (Some "A4")
                  (Some (mkMarginConfig (Some "1in") (Some "1in")
                                        (Some "1in") (Some "1in")))))
         (Some false))
      (logged (ConsoleError "Failed to extract document metadata:" Sample.not_a_zip)
         (extractDocumentMetadata_try Sample.env Sample.not_docx Sample.world).2).
Proof.
  apply (smartConvert_after_failed_analysis Sample.env Sample.not_docx
           "sample.docx" Sample.no_options Sample.world Sample.not_a_zip).
  vm_compute. reflexivity.
Defined.


(** The sample document: its temporary directory outlives the analysis. *)
Lemma extractDocumentMetadata_keeps_tempDir_witness :
  files (Sample.analyse Sample.docx).2 !! tempDirOf Sample.env "doc-meta-" Sample.world
    = Some Dir ∧
  files (Sample.analyse Sample.docx).2
    !! Path.join [tempDirOf Sample.env "doc-meta-" Sample.world; "temp.docx"]
    = Some (File Sample.docx).
Proof.
  apply (extractDocumentMetadata_keeps_tempDir Sample.env Sample.docx Sample.world
           (mkMetadata "A4" 5 false false [])).
  vm_compute. reflexivity.
Defined.
